(** * MultiNLI dataset builder (tensorflow_datasets/text/multi_nli.py)

    A shallow embedding of the row generator, the vocabulary text generator
    and the split path computation of the [MultiNLI] builder, together with
    the properties of them that its specification states.

    Data model.  A file is a sequence of bytes, read line by line through
    the file object, which drops carriage returns; Python [bytes] objects are
    [list byte].  A Python [str] is a sequence of Unicode code points,
    [list N].  Paths are [string].  A generator is modelled by what a consumer
    that drains it observes: the list of the values it yielded, in order, and
    the exception that ended it, if one did. *)

From Stdlib Require Import List Strings.String Strings.Ascii Strings.Byte.
From Stdlib Require Import NArith Bool Arith Lia Sorting.Sorted.
Import ListNotations.

(** ** Python values and the builtins the module calls *)

Module Py.

Definition bytes := list byte.
Definition str := list N.

(** An ASCII literal as [bytes] and as [str]. *)
Definition ascii_bytes (s : string) : bytes := list_byte_of_string s.
Definition ascii_str (s : string) : str := map Byte.to_N (ascii_bytes s).

Definition str_eq_dec : forall x y : str, {x = y} + {x <> y} :=
  list_eq_dec N.eq_dec.

(** The exceptions that can end the generators of this module. *)
Inductive exn : Type :=
| NotFoundError
| UnicodeDecodeError
| IndexError.

(** What draining a generator shows: the values yielded, then the exception
    raised (or [None] when it ran to its end). *)
Record gen (A : Type) : Type := Gen {
  yielded : list A;
  raised : option exn
}.

Arguments Gen {A} _ _.
Arguments yielded {A} _.
Arguments raised {A} _.

Definition stop {A} : gen A := Gen [] None.
Definition raise {A} (e : exn) : gen A := Gen [] (Some e).
Definition yield {A} (a : A) (k : gen A) : gen A :=
  Gen (a :: yielded k) (raised k).

(** A generator run after another: the second starts only when the first
    ended without an exception. *)
Definition chain {A} (g k : gen A) : gen A :=
  match raised g with
  | None => Gen (yielded g ++ yielded k) (raised k)
  | Some _ => g
  end.

(** [seq[i]] for a non-negative [i]: [IndexError] out of range. *)
Definition getitem {A} (l : list A) (i : nat) : exn + A :=
  match nth_error l i with
  | Some a => inr a
  | None => inl IndexError
  end.

(** [bytes.strip()] without argument removes ASCII whitespace, that is the
    bytes of [b" \t\n\r\x0b\f"], from both ends. *)
Definition is_space (c : byte) : bool :=
  match c with
  | x09 | x0a | x0b | x0c | x0d | x20 => true
  | _ => false
  end.

Fixpoint lstrip (s : bytes) : bytes :=
  match s with
  | [] => []
  | c :: s' => if is_space c then lstrip s' else s
  end.

Definition rstrip (s : bytes) : bytes := rev (lstrip (rev s)).

Definition strip (s : bytes) : bytes := rstrip (lstrip s).

(** [bytes.decode("utf-8")], strict: shortest form only, no surrogates,
    nothing above U+10FFFF. *)
Definition in_range (lo hi : N) (c : byte) : bool :=
  ((lo <=? Byte.to_N c) && (Byte.to_N c <=? hi))%N.

Definition cont (c : byte) : bool := in_range 128 191 c.

Definition low6 (c : byte) : N := (Byte.to_N c - 128)%N.

Fixpoint utf8_decode (s : bytes) : option str :=
  match s with
  | [] => Some []
  | c0 :: s0 =>
    let n0 := Byte.to_N c0 in
    if (n0 <? 128)%N then option_map (cons n0) (utf8_decode s0)
    else if in_range 194 223 c0 then
      match s0 with
      | c1 :: s1 =>
        if cont c1
        then option_map (cons ((n0 - 192) * 64 + low6 c1)%N) (utf8_decode s1)
        else None
      | _ => None
      end
    else if in_range 224 239 c0 then
      match s0 with
      | c1 :: c2 :: s2 =>
        let lo := if (n0 =? 224)%N then 160%N else 128%N in
        let hi := if (n0 =? 237)%N then 159%N else 191%N in
        if in_range lo hi c1 && cont c2
        then option_map
               (cons ((n0 - 224) * 4096 + low6 c1 * 64 + low6 c2)%N)
               (utf8_decode s2)
        else None
      | _ => None
      end
    else if in_range 240 244 c0 then
      match s0 with
      | c1 :: c2 :: c3 :: s3 =>
        let lo := if (n0 =? 240)%N then 144%N else 128%N in
        let hi := if (n0 =? 244)%N then 143%N else 191%N in
        if in_range lo hi c1 && cont c2 && cont c3
        then option_map
               (cons ((n0 - 240) * 262144 + low6 c1 * 4096
                      + low6 c2 * 64 + low6 c3)%N)
               (utf8_decode s3)
        else None
      | _ => None
      end
    else None
  end.

(** [tf.compat.as_text] of a [bytes] object decodes it as UTF-8. *)
Definition as_text (s : bytes) : exn + str :=
  match utf8_decode s with
  | Some t => inr t
  | None => inl UnicodeDecodeError
  end.

(** [str.split(sep)] for a separator of one character. *)
Fixpoint split (sep : N) (s : str) : list str :=
  match s with
  | [] => [[]]
  | c :: s' =>
    if (c =? sep)%N then [] :: split sep s'
    else match split sep s' with
         | f :: fs => (c :: f) :: fs
         | [] => [[c]]
         end
  end.

(** [sep.join(items)]. *)
Fixpoint join (sep : str) (items : list str) : str :=
  match items with
  | [] => []
  | [x] => x
  | x :: rest => x ++ sep ++ join sep rest
  end.

(** What the file object leaves of a stretch of bytes: it drops every
    carriage return it reads. *)
Definition drop_cr (s : bytes) : bytes :=
  filter (fun c => negb (Byte.eqb c x0d)) s.

(** Iterating a [tf.io.gfile.GFile] opened in binary mode yields its lines,
    each with its terminating newline byte when it has one.  The file object
    drops every carriage return of a line, and the iteration stops when
    nothing is left to give: a last stretch of carriage returns alone is no
    line. *)
Fixpoint readlines (data : bytes) : list bytes :=
  match data with
  | [] => []
  | c :: data' =>
    if Byte.eqb c x0a then [c] :: readlines data'
    else if Byte.eqb c x0d then readlines data'
    else match readlines data' with
         | l :: ls => (c :: l) :: ls
         | [] => [[c]]
         end
  end.

(** The files the program can read: the contents stored under each path. *)
Definition filesystem := string -> option bytes.

(** [os.path.join(a, p)] on POSIX. *)
Definition startswith_slash (p : string) : bool :=
  match p with
  | String c _ => Ascii.eqb c "/"
  | EmptyString => false
  end.

Fixpoint endswith_slash (p : string) : bool :=
  match p with
  | EmptyString => false
  | String c EmptyString => Ascii.eqb c "/"
  | String _ p' => endswith_slash p'
  end.

Definition path_join (a p : string) : string :=
  if startswith_slash p then p
  else if match a with EmptyString => true | _ => endswith_slash a end
       then (a ++ p)%string
       else (a ++ "/" ++ p)%string.

(** The separator [os.path.join] puts after [a]: none when [a] is empty or
    already ends with one. *)
Definition sep_after (a : string) : string :=
  if match a with EmptyString => true | _ => endswith_slash a end
  then EmptyString else "/"%string.

End Py.

(** ** The builder *)

Module MultiNLI.

Import Py.

(** The dictionary a row is turned into. *)
Record Example : Type := {
  premise : str;
  hypothesis : str;
  label : str
}.

Definition TAB : N := 9.
Definition DASH : str := ascii_str "-".
Definition SPACE : str := ascii_str " ".

(** The class names of the ["label"] feature declared by [_info]. *)
Definition label_names : list str :=
  [ascii_str "entailment"; ascii_str "neutral"; ascii_str "contradiction"].

(** An exception raised by a subexpression ends the generator. *)
Notation "x <- e ;; k" :=
  (match e with
   | inl err => raise err
   | inr x => k
   end) (at level 61, e at next level, right associativity, only parsing).

(** The [for] loop of [_generate_examples] from row [idx] on, over the lines
    the file object still has to give. *)
Fixpoint for_rows (idx : nat) (lines : list bytes) : gen (nat * Example) :=
  match lines with
  | [] => stop
  | line :: rest =>
    if Nat.eqb idx 0 then for_rows (S idx) rest
    else
      line <- as_text (strip line) ;;
      let split_line := split TAB line in
      first <- getitem split_line 0 ;;
      if str_eq_dec first DASH then for_rows (S idx) rest
      else
        p <- getitem split_line 5 ;;
        h <- getitem split_line 6 ;;
        l <- getitem split_line 0 ;;
        yield (idx, {| premise := p; hypothesis := h; label := l |})
              (for_rows (S idx) rest)
  end.

(** Code that reads files threads the file system. *)
Definition IO (A : Type) : Type := filesystem -> A * filesystem.

(** [enumerate(tf.io.gfile.GFile(filepath, "rb"))]: the lines the file
    object gives, carriage returns dropped, or [NotFoundError] at the first
    read when there is no such file. *)
Definition GFile_rb (filepath : string) : IO (exn + list bytes) :=
  fun fs =>
    (match fs filepath with
     | Some data => inr (readlines data)
     | None => inl NotFoundError
     end, fs).

Definition _generate_examples (filepath : string) : IO (gen (nat * Example)) :=
  fun fs =>
    let (f, fs') := GFile_rb filepath fs in
    (lines <- f ;; for_rows 0 lines, fs').

Definition _vocab_text_gen (filepath : string) : IO (gen str) :=
  fun fs =>
    let (g, fs') := _generate_examples filepath fs in
    (Gen (map (fun '(_, ex) => join SPACE [premise ex; hypothesis ex])
              (yielded g))
         (raised g), fs').

(** Modelled from the spec: the constant [tfds.Split.TRAIN] of the dataset
    framework, the split name [train]. *)
Definition Split_TRAIN : string := "train".

Record SplitGenerator : Type := {
  name : string;
  gen_kwargs_filepath : string
}.

(** The download manager, as far as the builder uses it: the directory an
    archive was downloaded and extracted to. *)
Record DownloadManager : Type := {
  download_and_extract : string -> string
}.

Definition _URL : string :=
  ("http://storage.googleapis.com/tfds-data/downloads/multi_nli/"
   ++ "multinli_1.0.zip")%string.

Definition mnli_path (downloaded_dir : string) : string :=
  path_join downloaded_dir "multinli_1.0".
Definition train_path (downloaded_dir : string) : string :=
  path_join (mnli_path downloaded_dir) "multinli_1.0_train.txt".
Definition matched_validation_path (downloaded_dir : string) : string :=
  path_join (mnli_path downloaded_dir) "multinli_1.0_dev_matched.txt".
Definition mismatched_validation_path (downloaded_dir : string) : string :=
  path_join (mnli_path downloaded_dir) "multinli_1.0_dev_mismatched.txt".

(** The corpus [_split_generators] hands to [maybe_build_from_corpus] for
    the shared vocabulary. *)
Definition vocab_corpus (dl_manager : DownloadManager) : IO (gen str) :=
  _vocab_text_gen (train_path (download_and_extract dl_manager _URL)).

(** [_split_generators].  The encoder set-up between the paths and the
    [return] works on the features only and leaves the returned list as it
    is. *)
Definition _split_generators (dl_manager : DownloadManager)
  : list SplitGenerator :=
  let downloaded_dir := download_and_extract dl_manager _URL in
  [ {| name := Split_TRAIN;
       gen_kwargs_filepath := train_path downloaded_dir |};
    {| name := "validation_matched";
       gen_kwargs_filepath := matched_validation_path downloaded_dir |};
    {| name := "validation_mismatched";
       gen_kwargs_filepath := mismatched_validation_path downloaded_dir |} ].

(** *** Vocabulary of the statements *)

(** The fields of a row as the loop body computes them, when the row
    decodes. *)
Definition fields (line : bytes) : option (list str) :=
  match as_text (strip line) with
  | inr t => Some (split TAB t)
  | inl _ => None
  end.

(** The fields of a row as the specification words them: only trailing
    whitespace is stripped before the split. *)
Definition fields_as_specified (line : bytes) : option (list str) :=
  match as_text (rstrip line) with
  | inr t => Some (split TAB t)
  | inl _ => None
  end.

(** A row the loop body gets through without an exception: it decodes and
    either is marked ["-"] or has the seven fields that are read. *)
Definition passes (line : bytes) : bool :=
  match fields line with
  | Some fs =>
    match fs with
    | first :: _ =>
      if str_eq_dec first DASH then true else Nat.leb 7 (List.length fs)
    | [] => false
    end
  | None => false
  end.

(** The data rows before row [idx]. *)
Definition rows_before (idx : nat) (lines : list bytes) : list bytes :=
  skipn 1 (firstn idx lines).

(** The Example a data row gives, when it gives one: it decodes, is not
    marked ["-"] and has the fields that are read. *)
Definition row_example (line : bytes) : option Example :=
  match fields line with
  | Some cells =>
    match nth_error cells 0, nth_error cells 5, nth_error cells 6 with
    | Some first, Some p, Some h =>
      if str_eq_dec first DASH then None
      else Some {| premise := p; hypothesis := h; label := first |}
    | _, _, _ => None
    end
  | None => None
  end.

(** The lines of a file with their numbers, the header left out, and the
    pairs of the data rows among them that give an Example. *)
Definition numbered_rows (lines : list bytes) : list (nat * bytes) :=
  skipn 1 (combine (seq 0 (List.length lines)) lines).

Definition pair_of_row (r : nat * bytes) : list (nat * Example) :=
  match row_example (snd r) with
  | Some ex => [(fst r, ex)]
  | None => []
  end.

Definition comprehension (lines : list bytes) : list (nat * Example) :=
  flat_map pair_of_row (numbered_rows lines).

(** A file written from rows, each followed by the same end of line. *)
Definition unlines (eol : bytes) (rows : list bytes) : bytes :=
  List.concat (map (fun r => r ++ eol) rows).

Definition no_newline (s : bytes) : bool := negb (existsb (Byte.eqb x0a) s).

(** The ASCII whitespace characters, as code points. *)
Definition is_space_char (c : N) : bool :=
  ((c =? 9) || (c =? 10) || (c =? 11) || (c =? 12) || (c =? 13)
   || (c =? 32))%N.

(** A file whose last line, if it has one, is complete. *)
Definition ends_with_newline (data : bytes) : bool :=
  Byte.eqb (last data x0a) x0a.

(** *** Sample files *)

Definition NL : bytes := [x0a].
Definition tsv (cells : list string) : bytes :=
  ascii_bytes (String.concat (String "009" EmptyString) cells) ++ NL.

Definition header : bytes :=
  tsv ["gold_label"; "s1_parse"; "s2_parse"; "s1_tree"; "s2_tree";
       "sentence1"; "sentence2"; "promptID"]%string.
Definition row_a : bytes :=
  tsv ["entailment"; "a"; "b"; "c"; "d"; "The cat sat."; "A cat was sitting.";
       "31193n"]%string.
Definition row_a_cells : list str :=
  map ascii_str
      ["entailment"; "a"; "b"; "c"; "d"; "The cat sat.";
       "A cat was sitting."; "31193n"]%string.
Definition row_dash : bytes :=
  tsv ["-"; "a"; "b"; "c"; "d"; "One."; "Two."; "7n"]%string.
Definition dash_example : Example :=
  {| premise := ascii_str "One."; hypothesis := ascii_str "Two.";
     label := ascii_str "-" |}.
Definition row_short : bytes := tsv ["neutral"; "a"; "b"; "c"]%string.
Definition row_dash_short : bytes := tsv ["-"; "a"]%string.
Definition row_odd_label : bytes :=
  tsv ["maybe"; "a"; "b"; "c"; "d"; "One."; "Two."]%string.
Definition odd_label_example : Example :=
  {| premise := ascii_str "One."; hypothesis := ascii_str "Two.";
     label := ascii_str "maybe" |}.
Definition row_lead : bytes :=
  [x09] ++ tsv ["neutral"; "a"; "b"; "c"; "d"; "One."; "Two."]%string.

Definition two_files (data other : bytes) : filesystem :=
  fun p => if String.eqb p "f" then Some data
           else if String.eqb p "g" then Some other else None.

Definition extracted_to (dir : string) : DownloadManager :=
  {| download_and_extract := fun _ => dir |}.

Definition row_bad_utf8 : bytes := ascii_bytes "-" ++ [x09; xff; x0a].
Definition row_a_wide : bytes :=
  tsv ["entailment"; "w"; "x"; "y"; "z"; "The cat sat.";
       "A cat was sitting."; "1"; "2"; "3"; "4"]%string.
Definition plain_rows : list bytes :=
  map ascii_bytes ["header"; "-"]%string
  ++ [removelast row_a; removelast row_odd_label].

Definition row_dash_cr : bytes :=
  ascii_bytes "-" ++ [x0d; x09] ++ ascii_bytes "a" ++ [x0a].
Definition row_cafe_cr : bytes :=
  ascii_bytes "caf" ++ [xc3; x0d; xa9; x0a].
Definition row_cr_inside : bytes :=
  ascii_bytes "neu" ++ [x0d]
  ++ removelast (tsv ["tral"; "a"; "b"; "c"; "d"; "One"]%string) ++ [x0d]
  ++ tsv ["more."; "Two."]%string.

Definition one_file (data : bytes) : filesystem :=
  fun p => if String.eqb p "f" then Some data else None.

End MultiNLI.


(** ** Facts about the builtins *)

Section Builtins.

Import Py.

Lemma split_cons (sep : N) (s : str) :
  exists first others, split sep s = first :: others.
Proof.
  induction s as [|c s IH]; simpl.
  - now exists [], [].
  - destruct (N.eqb c sep).
    + now exists [], (split sep s).
    + destruct IH as (f & fs & ->). now exists (c :: f), fs.
Qed.

Lemma getitem_inr {A} (l : list A) (i : nat) (a : A) :
  getitem l i = inr a <-> nth_error l i = Some a.
Proof.
  unfold getitem. destruct (nth_error l i); split; intros H;
    inversion H; reflexivity.
Qed.

Lemma getitem_inl {A} (l : list A) (i : nat) (e : exn) :
  getitem l i = inl e <-> e = IndexError /\ List.length l <= i.
Proof.
  unfold getitem. destruct (nth_error l i) eqn:E.
  - split; [discriminate|]. intros [_ H].
    apply nth_error_None in H. congruence.
  - apply nth_error_None in E. split.
    + intros H; inversion H; auto.
    + intros [-> _]; reflexivity.
Qed.

Lemma lstrip_decompose (s : bytes) :
  exists pre, s = pre ++ lstrip s /\ forallb is_space pre = true.
Proof.
  induction s as [|c s IH]; simpl.
  - now exists [].
  - destruct (is_space c) eqn:E.
    + destruct IH as (pre & Hs & Hp). exists (c :: pre). simpl.
      rewrite E, Hp. split; [congruence | reflexivity].
    + now exists [].
Qed.

Lemma lstrip_head (s : bytes) (c : byte) (t : bytes) :
  lstrip s = c :: t -> is_space c = false.
Proof.
  induction s as [|d s IH]; simpl; [discriminate|].
  destruct (is_space d) eqn:E; [exact IH|].
  intros H; inversion H; subst; exact E.
Qed.

Lemma lstrip_fixed (c : byte) (t : bytes) :
  is_space c = false -> lstrip (c :: t) = c :: t.
Proof. intros E; simpl; now rewrite E. Qed.

Lemma lstrip_idempotent (s : bytes) : lstrip (lstrip s) = lstrip s.
Proof.
  destruct (lstrip s) as [|c t] eqn:E; [reflexivity|].
  apply lstrip_fixed. eapply lstrip_head; eauto.
Qed.

Lemma lstrip_snoc (s : bytes) (c : byte) :
  is_space c = false -> lstrip (s ++ [c]) = lstrip s ++ [c].
Proof.
  intros E. induction s as [|d s IH]; simpl.
  - now rewrite E.
  - destruct (is_space d); [exact IH | reflexivity].
Qed.

Lemma rstrip_cons (c : byte) (t : bytes) :
  is_space c = false -> rstrip (c :: t) = c :: rstrip t.
Proof.
  intros E. unfold rstrip. simpl. rewrite (lstrip_snoc _ _ E).
  now rewrite rev_app_distr.
Qed.

Lemma rstrip_idempotent (s : bytes) : rstrip (rstrip s) = rstrip s.
Proof.
  unfold rstrip. now rewrite rev_involutive, lstrip_idempotent.
Qed.

Lemma rstrip_decompose (s : bytes) :
  exists post, s = rstrip s ++ post /\ forallb is_space post = true.
Proof.
  destruct (lstrip_decompose (rev s)) as (pre & Hs & Hp).
  exists (rev pre). split.
  - unfold rstrip. rewrite <- rev_app_distr, <- Hs. now rewrite rev_involutive.
  - rewrite forallb_forall in *. intros x Hx. apply Hp. now apply in_rev.
Qed.

Lemma rstrip_last (s t : bytes) (c : byte) :
  rstrip s = t ++ [c] -> is_space c = false.
Proof.
  unfold rstrip. intros H.
  apply (f_equal (@rev byte)) in H.
  rewrite rev_involutive, rev_app_distr in H. simpl in H.
  eapply lstrip_head; eauto.
Qed.

Lemma strip_idempotent (s : bytes) : strip (strip s) = strip s.
Proof.
  unfold strip. destruct (lstrip s) as [|c t] eqn:E; [reflexivity|].
  pose proof (lstrip_head _ _ _ E) as Hc.
  rewrite (rstrip_cons _ _ Hc), (lstrip_fixed _ _ Hc), (rstrip_cons _ _ Hc).
  now rewrite rstrip_idempotent.
Qed.

Lemma byte_eqb_sym (x y : byte) : Byte.eqb x y = Byte.eqb y x.
Proof.
  destruct (Byte.eqb x y) eqn:E1, (Byte.eqb y x) eqn:E2; try reflexivity.
  - apply Byte.byte_dec_bl in E1. subst.
    now rewrite (Byte.byte_dec_lb eq_refl) in E2.
  - apply Byte.byte_dec_bl in E2. subst.
    now rewrite (Byte.byte_dec_lb eq_refl) in E1.
Qed.

Lemma readlines_line (l rest : bytes) :
  existsb (Byte.eqb x0a) l = false ->
  readlines (l ++ x0a :: rest) = (drop_cr l ++ [x0a]) :: readlines rest.
Proof.
  induction l as [|c l IH]; simpl; intros H.
  - reflexivity.
  - apply orb_false_elim in H. destruct H as [Hc Hl].
    rewrite byte_eqb_sym, Hc, (IH Hl).
    destruct (Byte.eqb c x0d); reflexivity.
Qed.

End Builtins.

(** ** The loop, row by row *)

Section Loop.

Import Py MultiNLI.

(** One turn of the loop on a data row, told by the fields of the row. *)
Lemma for_rows_cons (idx : nat) (line : bytes) (rest : list bytes) :
  idx <> 0 ->
  for_rows idx (line :: rest) =
  match fields line with
  | None => raise UnicodeDecodeError
  | Some cells =>
    match nth_error cells 0 with
    | None => raise IndexError
    | Some first =>
      if str_eq_dec first DASH then for_rows (S idx) rest
      else
        match nth_error cells 5, nth_error cells 6 with
        | Some p, Some h =>
          yield (idx, {| premise := p; hypothesis := h; label := first |})
                (for_rows (S idx) rest)
        | _, _ => raise IndexError
        end
    end
  end.
Proof.
  intros Hidx. destruct idx as [|n]; [congruence|].
  cbn [for_rows Nat.eqb]. unfold fields, as_text, getitem.
  destruct (utf8_decode (strip line)) as [t|]; [|reflexivity].
  destruct (nth_error (split TAB t) 0) as [first|]; [|reflexivity].
  destruct (str_eq_dec first DASH); [reflexivity|].
  destruct (nth_error (split TAB t) 5); [|reflexivity].
  destruct (nth_error (split TAB t) 6); reflexivity.
Qed.

Lemma for_rows_header (line : bytes) (rest : list bytes) :
  for_rows 0 (line :: rest) = for_rows 1 rest.
Proof. reflexivity. Qed.

Lemma fields_first (line : bytes) (cells : list str) :
  fields line = Some cells -> exists first, nth_error cells 0 = Some first.
Proof.
  unfold fields, as_text.
  destruct (utf8_decode (strip line)) as [t|]; [|discriminate].
  intros H; inversion H; subst.
  destruct (split_cons TAB t) as (f & fs & ->). now exists f.
Qed.

Lemma nth_error_some_length {A} (l : list A) (i : nat) (a : A) :
  nth_error l i = Some a -> i < List.length l.
Proof. intros H. apply nth_error_Some. congruence. Qed.

(** A row passes exactly when its turn of the loop raises nothing. *)
Lemma passes_cons (idx : nat) (line : bytes) (rest : list bytes) :
  idx <> 0 ->
  raised (for_rows idx (line :: rest)) =
  if passes line then raised (for_rows (S idx) rest)
  else match raised (for_rows idx (line :: rest)) with
       | Some e => Some e
       | None => Some IndexError
       end.
Proof.
  intros Hidx. rewrite (for_rows_cons _ _ _ Hidx). unfold passes.
  destruct (fields line) as [cells|] eqn:Hf; [|reflexivity].
  destruct (fields_first _ _ Hf) as (first & H0).
  rewrite H0. destruct cells as [|c cells]; [discriminate|].
  simpl in H0. inversion H0; subst c.
  destruct (str_eq_dec first DASH); [reflexivity|].
  destruct (Nat.leb 7 (List.length (first :: cells))) eqn:Hlen.
  - apply Nat.leb_le in Hlen.
    destruct (nth_error (first :: cells) 5) eqn:H5.
    + destruct (nth_error (first :: cells) 6) eqn:H6; [reflexivity|].
      apply nth_error_None in H6. lia.
    + apply nth_error_None in H5. lia.
  - apply Nat.leb_gt in Hlen.
    destruct (nth_error (first :: cells) 5) eqn:H5; [|reflexivity].
    destruct (nth_error (first :: cells) 6) eqn:H6; [|reflexivity].
    apply nth_error_some_length in H6. lia.
Qed.

Lemma fails_cons (idx : nat) (line : bytes) (rest : list bytes) :
  idx <> 0 -> passes line = false ->
  yielded (for_rows idx (line :: rest)) = [] /\
  raised (for_rows idx (line :: rest)) <> None.
Proof.
  intros Hidx Hp. pose proof (passes_cons idx line rest Hidx) as Hr.
  rewrite Hp in Hr. split.
  - clear Hr. rewrite (for_rows_cons _ _ _ Hidx). unfold passes in Hp.
    destruct (fields line) as [cells|] eqn:Hf; [|reflexivity].
    destruct (fields_first _ _ Hf) as (first & H0). rewrite H0.
    destruct cells as [|c cells]; [discriminate|].
    simpl in H0. inversion H0; subst c.
    destruct (str_eq_dec first DASH); [discriminate|].
    apply Nat.leb_gt in Hp.
    destruct (nth_error (first :: cells) 5) eqn:H5; [|reflexivity].
    destruct (nth_error (first :: cells) 6) eqn:H6; [|reflexivity].
    apply nth_error_some_length in H6. lia.
  - destruct (raised (for_rows idx (line :: rest))); congruence.
Qed.

Lemma for_rows_raised (idx : nat) (lines : list bytes) :
  idx <> 0 ->
  raised (for_rows idx lines) = None <-> forallb passes lines = true.
Proof.
  revert idx. induction lines as [|line rest IH]; intros idx Hidx.
  - simpl. tauto.
  - rewrite (passes_cons idx line rest Hidx). cbn [forallb].
    destruct (passes line) eqn:Hp; cbn [andb].
    + apply IH. lia.
    + split; [|discriminate].
      destruct (raised (for_rows idx (line :: rest))); discriminate.
Qed.

Lemma for_rows_app (idx : nat) (pre post : list bytes) :
  for_rows idx (pre ++ post) =
  chain (for_rows idx pre) (for_rows (idx + List.length pre) post).
Proof.
  revert idx. induction pre as [|line pre IH]; intros idx.
  - simpl. rewrite Nat.add_0_r. unfold chain. simpl.
    now destruct (for_rows idx post).
  - replace (idx + List.length (line :: pre))
      with (S idx + List.length pre) by (simpl; lia).
    destruct idx as [|n].
    + rewrite <- app_comm_cons, !for_rows_header. apply IH.
    + rewrite <- app_comm_cons.
      rewrite (for_rows_cons (S n) line (pre ++ post)) by discriminate.
      rewrite (for_rows_cons (S n) line pre) by discriminate.
      destruct (fields line) as [cells|]; [|reflexivity].
      destruct (nth_error cells 0) as [first|]; [|reflexivity].
      destruct (str_eq_dec first DASH); [apply IH|].
      destruct (nth_error cells 5); [|reflexivity].
      destruct (nth_error cells 6); [|reflexivity].
      rewrite IH. unfold chain, yield.
      now destruct (for_rows (S (S n)) pre) as [ys [e|]].
Qed.

(** Every pair yielded comes from the row of its index. *)
Lemma for_rows_In (idx : nat) (lines : list bytes) (j : nat) (ex : Example) :
  In (j, ex) (yielded (for_rows idx lines)) ->
  idx <= j /\ j <> 0 /\
  exists line cells,
    nth_error lines (j - idx) = Some line /\
    fields line = Some cells /\
    nth_error cells 0 = Some (label ex) /\
    label ex <> DASH /\
    nth_error cells 5 = Some (premise ex) /\
    nth_error cells 6 = Some (hypothesis ex).
Proof.
  revert idx. induction lines as [|line rest IH]; intros idx Hin.
  - destruct Hin.
  - assert (Hnext : In (j, ex) (yielded (for_rows (S idx) rest)) ->
        idx <= j /\ j <> 0 /\
        exists line0 cells,
          nth_error (line :: rest) (j - idx) = Some line0 /\
          fields line0 = Some cells /\
          nth_error cells 0 = Some (label ex) /\
          label ex <> DASH /\
          nth_error cells 5 = Some (premise ex) /\
          nth_error cells 6 = Some (hypothesis ex)).
    { intros H. destruct (IH _ H) as (Hle & Hj & l & cells & Hn & Hrest).
      split; [lia|]. split; [exact Hj|]. exists l, cells. split; [|exact Hrest].
      replace (j - idx) with (S (j - S idx)) by lia. exact Hn. }
    destruct idx as [|n]; [exact (Hnext Hin)|].
    rewrite (for_rows_cons (S n)) in Hin by lia.
    destruct (fields line) as [cells|] eqn:Hf; [|destruct Hin].
    destruct (nth_error cells 0) as [first|] eqn:H0; [|destruct Hin].
    destruct (str_eq_dec first DASH) as [|Hd]; [exact (Hnext Hin)|].
    destruct (nth_error cells 5) as [p|] eqn:H5; [|destruct Hin].
    destruct (nth_error cells 6) as [h|] eqn:H6; [|destruct Hin].
    destruct Hin as [Heq|Hin]; [|exact (Hnext Hin)].
    inversion Heq; subst j ex. split; [lia|]. split; [lia|].
    exists line, cells. rewrite Nat.sub_diag. simpl.
    repeat split; assumption.
Qed.

Lemma for_rows_lower (idx : nat) (lines : list bytes) :
  Forall (fun r => idx <= fst r /\ fst r <> 0) (yielded (for_rows idx lines)).
Proof.
  apply Forall_forall. intros [j ex] Hin.
  destruct (for_rows_In _ _ _ _ Hin) as (H1 & H2 & _). simpl. auto.
Qed.

Lemma for_rows_upper (idx : nat) (lines : list bytes) :
  Forall (fun r => fst r < idx + List.length lines)
         (yielded (for_rows idx lines)).
Proof.
  apply Forall_forall. intros [j ex] Hin.
  destruct (for_rows_In _ _ _ _ Hin) as (H1 & _ & l & c & Hn & _).
  apply nth_error_some_length in Hn. simpl. lia.
Qed.

End Loop.

(** ** The generator on a file *)

Section OnFile.

Import Py MultiNLI.

Lemma generate_examples_lines (filepath : string) (fs : filesystem)
      (data : bytes) :
  fs filepath = Some data ->
  fst (_generate_examples filepath fs) = for_rows 0 (readlines data).
Proof.
  intros H. unfold _generate_examples, GFile_rb. now rewrite H.
Qed.

Lemma generate_examples_missing (filepath : string) (fs : filesystem) :
  fs filepath = None ->
  fst (_generate_examples filepath fs) = raise NotFoundError.
Proof.
  intros H. unfold _generate_examples, GFile_rb. now rewrite H.
Qed.

Lemma nth_error_cut {A} (l : list A) (i : nat) (a : A) :
  nth_error l i = Some a ->
  l = firstn i l ++ a :: skipn (S i) l /\ List.length (firstn i l) = i.
Proof.
  revert i. induction l as [|x l IH]; intros [|i] H; simpl in *;
    try discriminate.
  - inversion H; auto.
  - destruct (IH _ H) as [H1 H2]. split; [now rewrite <- H1 | now rewrite H2].
Qed.

(** The rows before [idx] all pass exactly when the loop gets to row [idx]
    without an exception. *)
Lemma rows_before_pass (idx : nat) (lines : list bytes) :
  1 <= idx ->
  raised (for_rows 0 (firstn idx lines)) = None <->
  forallb passes (rows_before idx lines) = true.
Proof.
  intros Hidx. unfold rows_before.
  destruct idx as [|n]; [lia|]. destruct lines as [|hd lines].
  - simpl. tauto.
  - cbn [firstn skipn]. rewrite for_rows_header. now apply for_rows_raised.
Qed.

(** The run of the loop, cut at row [idx]. *)
Lemma for_rows_cut (idx : nat) (lines : list bytes) (line : bytes) :
  nth_error lines idx = Some line ->
  for_rows 0 lines =
  chain (for_rows 0 (firstn idx lines))
        (for_rows idx (line :: skipn (S idx) lines)).
Proof.
  intros H. destruct (nth_error_cut _ _ _ H) as [Hl Hn].
  rewrite Hl at 1. rewrite for_rows_app, Hn. reflexivity.
Qed.

Lemma prefix_indices (idx : nat) (lines : list bytes) :
  Forall (fun r => fst r < idx) (yielded (for_rows 0 (firstn idx lines))).
Proof.
  eapply Forall_impl; [|apply for_rows_upper].
  intros r Hr. simpl in Hr. pose proof (firstn_le_length idx lines). lia.
Qed.

Lemma suffix_indices (idx : nat) (lines : list bytes) :
  Forall (fun r => idx < fst r) (yielded (for_rows (S idx) lines)).
Proof.
  eapply Forall_impl; [|apply for_rows_lower].
  intros r [Hr _]. lia.
Qed.

End OnFile.

(** ** Rows that are emitted, rows that are skipped *)

Section Rows.

Import Py MultiNLI.

(** C1 (as amended).  In a file whose data rows before row [idx] all pass
    (each decodes and either is marked ["-"] or has seven fields), a data row
    [idx >= 1] that decodes, whose first field is not ["-"] and that has
    fields 5 and 6, is emitted exactly once, as the pair of its 0-based line
    number and [{premise: field 5, hypothesis: field 6, label: field 0}]:
    the pairs yielded before it carry smaller indices, those after it larger
    ones. *)
Theorem generate_examples_emits_row
        (filepath : string) (fs : filesystem) (data : bytes)
        (idx : nat) (line : bytes) (cells : list str) (first p h : str) :
  fs filepath = Some data ->
  nth_error (readlines data) idx = Some line ->
  1 <= idx ->
  forallb passes (rows_before idx (readlines data)) = true ->
  fields line = Some cells ->
  nth_error cells 0 = Some first ->
  first <> DASH ->
  nth_error cells 5 = Some p ->
  nth_error cells 6 = Some h ->
  exists before after,
    yielded (fst (_generate_examples filepath fs)) =
      before
      ++ (idx, {| premise := p; hypothesis := h; label := first |}) :: after
    /\ Forall (fun r => fst r < idx) before
    /\ Forall (fun r => idx < fst r) after.
Proof.
  intros Hfs Hn Hidx Hpre Hf H0 Hd H5 H6.
  rewrite (generate_examples_lines _ _ _ Hfs), (for_rows_cut _ _ _ Hn).
  apply (rows_before_pass _ _ Hidx) in Hpre. unfold chain. rewrite Hpre.
  rewrite for_rows_cons by lia. rewrite Hf, H0.
  destruct (str_eq_dec first DASH) as [|_]; [contradiction|].
  rewrite H5, H6. cbn [yielded yield].
  eexists _, _. split; [reflexivity|]. split.
  - apply prefix_indices.
  - apply suffix_indices.
Qed.

Lemma generate_examples_emits_row_witness :
  exists before after,
    yielded (fst (_generate_examples
                    "f" (one_file (header ++ row_dash ++ row_a)))) =
      before
      ++ (2, {| premise := ascii_str "The cat sat.";
                hypothesis := ascii_str "A cat was sitting.";
                label := ascii_str "entailment" |}) :: after
    /\ Forall (fun r => fst r < 2) before
    /\ Forall (fun r => 2 < fst r) after.
Proof.
  eapply (generate_examples_emits_row
            "f" (one_file (header ++ row_dash ++ row_a))
            (header ++ row_dash ++ row_a) 2 row_a).
  - reflexivity.
  - reflexivity.
  - lia.
  - reflexivity.
  - reflexivity.
  - reflexivity.
  - discriminate.
  - reflexivity.
  - reflexivity.
Defined.

(** C1 as the specification words it, for every input file, fails: a row
    after one that raised is never reached. *)
Lemma generate_examples_row_after_fault :
  ~ (forall (data : bytes) (idx : nat) (line : bytes) (cells : list str)
            (first p h : str),
        nth_error (readlines data) idx = Some line ->
        1 <= idx ->
        fields line = Some cells ->
        nth_error cells 0 = Some first ->
        first <> DASH ->
        nth_error cells 5 = Some p ->
        nth_error cells 6 = Some h ->
        In (idx, {| premise := p; hypothesis := h; label := first |})
           (yielded (fst (_generate_examples "f" (one_file data))))).
Proof.
  intros H.
  assert (Hd : ascii_str "entailment" <> DASH) by discriminate.
  specialize (H (header ++ row_short ++ row_a) 2 row_a row_a_cells
                (ascii_str "entailment") (ascii_str "The cat sat.")
                (ascii_str "A cat was sitting.")
                eq_refl (le_S _ _ (le_n 1)) eq_refl eq_refl Hd
                eq_refl eq_refl).
  vm_compute in H. exact H.
Qed.

(** C2.  A row whose first tab-separated field is the string ["-"] is never
    emitted: no pair with its index is yielded. *)
Theorem dash_row_not_emitted
        (filepath : string) (fs : filesystem) (data : bytes)
        (idx : nat) (line : bytes) (cells : list str) (ex : Example) :
  fs filepath = Some data ->
  nth_error (readlines data) idx = Some line ->
  fields line = Some cells ->
  nth_error cells 0 = Some DASH ->
  ~ In (idx, ex) (yielded (fst (_generate_examples filepath fs))).
Proof.
  intros Hfs Hn Hf H0 Hin.
  rewrite (generate_examples_lines _ _ _ Hfs) in Hin.
  destruct (for_rows_In _ _ _ _ Hin)
    as (_ & _ & line' & cells' & Hn' & Hf' & H0' & Hd & _).
  rewrite Nat.sub_0_r in Hn'. congruence.
Qed.

Lemma dash_row_not_emitted_witness :
  ~ In (1, dash_example)
       (yielded (fst (_generate_examples
                        "f" (one_file (header ++ row_dash ++ row_a))))).
Proof.
  eapply (dash_row_not_emitted
            "f" (one_file (header ++ row_dash ++ row_a))
            (header ++ row_dash ++ row_a) 1 row_dash _ dash_example);
    reflexivity.
Defined.

(** C3.  Row 0, the header line, is skipped whatever it holds: no pair with
    index 0 is ever yielded, and two files that differ in the header line
    only give the same run. *)
Theorem header_row_skipped (filepath : string) (fs : filesystem) :
  Forall (fun r => fst r <> 0)
         (yielded (fst (_generate_examples filepath fs)))
  /\ forall (hd hd' rest : bytes) (fs' : filesystem),
       existsb (Byte.eqb x0a) hd = false ->
       existsb (Byte.eqb x0a) hd' = false ->
       fs filepath = Some (hd ++ x0a :: rest) ->
       fs' filepath = Some (hd' ++ x0a :: rest) ->
       fst (_generate_examples filepath fs')
       = fst (_generate_examples filepath fs).
Proof.
  split.
  - destruct (fs filepath) as [data|] eqn:Hfs.
    + rewrite (generate_examples_lines _ _ _ Hfs).
      eapply Forall_impl; [|apply for_rows_lower]. intros r [_ Hr]. exact Hr.
    + rewrite (generate_examples_missing _ _ Hfs). constructor.
  - intros hd hd' rest fs' Hhd Hhd' Hfs Hfs'.
    rewrite (generate_examples_lines _ _ _ Hfs),
            (generate_examples_lines _ _ _ Hfs').
    rewrite !readlines_line by assumption. reflexivity.
Qed.

Lemma header_row_skipped_witness :
  fst (_generate_examples
         "f" (one_file (ascii_bytes "no header here" ++ x0a :: row_a)))
  = fst (_generate_examples
           "f" (one_file (ascii_bytes "-" ++ x0a :: row_a))).
Proof.
  apply (proj2 (header_row_skipped
                  "f" (one_file (ascii_bytes "-" ++ x0a :: row_a)))
               (ascii_bytes "-") (ascii_bytes "no header here") row_a);
    reflexivity.
Defined.

End Rows.

(** ** Labels and malformed rows *)

Section Faults.

Import Py MultiNLI.

(** C4 (as amended).  The label of every emitted Example is the raw first
    field of its row, which is any text other than ["-"]; the generator does
    not check it against the class names, so it is one of [entailment],
    [neutral], [contradiction] exactly when that field is. *)
Theorem emitted_label_is_first_field
        (filepath : string) (fs : filesystem) (idx : nat) (ex : Example) :
  In (idx, ex) (yielded (fst (_generate_examples filepath fs))) ->
  exists data line cells,
    fs filepath = Some data /\
    nth_error (readlines data) idx = Some line /\
    fields line = Some cells /\
    nth_error cells 0 = Some (label ex) /\
    label ex <> DASH /\
    (In (label ex) label_names <->
     exists first, nth_error cells 0 = Some first /\ In first label_names).
Proof.
  intros Hin. destruct (fs filepath) as [data|] eqn:Hfs.
  - rewrite (generate_examples_lines _ _ _ Hfs) in Hin.
    destruct (for_rows_In _ _ _ _ Hin)
      as (_ & _ & line & cells & Hn & Hf & H0 & Hd & _).
    rewrite Nat.sub_0_r in Hn. exists data, line, cells.
    split; [reflexivity|]. split; [exact Hn|]. split; [exact Hf|].
    split; [exact H0|]. split; [exact Hd|]. split.
    + intros Hl. now exists (label ex).
    + intros (first & H0' & Hl). congruence.
  - rewrite (generate_examples_missing _ _ Hfs) in Hin. destruct Hin.
Qed.

Lemma emitted_label_is_first_field_witness :
  exists data line cells,
    one_file (header ++ row_odd_label) "f"%string = Some data /\
    nth_error (readlines data) 1 = Some line /\
    fields line = Some cells /\
    nth_error cells 0 = Some (ascii_str "maybe") /\
    ascii_str "maybe" <> DASH /\
    (In (ascii_str "maybe") label_names <->
     exists first, nth_error cells 0 = Some first /\ In first label_names).
Proof.
  apply (emitted_label_is_first_field
           "f" (one_file (header ++ row_odd_label)) 1 odd_label_example).
  vm_compute. left. reflexivity.
Defined.

(** C4 as the specification words it fails: a label outside the three class
    names goes through. *)
Lemma emitted_label_outside_class_names :
  ~ (forall (data : bytes) (idx : nat) (ex : Example),
        In (idx, ex) (yielded (fst (_generate_examples "f" (one_file data)))) ->
        In (label ex) label_names).
Proof.
  intros H.
  specialize (H (header ++ row_odd_label) 1 odd_label_example
                (or_introl eq_refl)).
  vm_compute in H. destruct H as [H|[H|[H|[]]]]; discriminate H.
Qed.

(** The turn of the loop on a short row that is not marked ["-"]. *)
Lemma short_row_turn (idx : nat) (line : bytes) (rest : list bytes)
      (cells : list str) :
  idx <> 0 ->
  fields line = Some cells ->
  nth_error cells 0 <> Some DASH ->
  List.length cells < 7 ->
  for_rows idx (line :: rest) = raise IndexError.
Proof.
  intros Hidx Hf H0 Hlen. rewrite (for_rows_cons _ _ _ Hidx), Hf.
  destruct (nth_error cells 0) as [first|]; [|reflexivity].
  destruct (str_eq_dec first DASH) as [->|_]; [congruence|].
  destruct (nth_error cells 5) eqn:H5; [|reflexivity].
  destruct (nth_error cells 6) eqn:H6; [|reflexivity].
  apply nth_error_some_length in H6. lia.
Qed.

(** C5 (as amended).  When a data row [idx >= 1] decodes, is not marked
    ["-"] and has fewer than seven tab-separated fields, the run ends with an
    exception and yields nothing from row [idx] on; when the rows before it
    all pass, the exception is [IndexError], raised at that row: what was
    yielded is what the rows before it gave. *)
Theorem short_row_raises
        (filepath : string) (fs : filesystem) (data : bytes)
        (idx : nat) (line : bytes) (cells : list str) :
  fs filepath = Some data ->
  nth_error (readlines data) idx = Some line ->
  1 <= idx ->
  fields line = Some cells ->
  nth_error cells 0 <> Some DASH ->
  List.length cells < 7 ->
  raised (fst (_generate_examples filepath fs)) <> None
  /\ Forall (fun r => fst r < idx)
            (yielded (fst (_generate_examples filepath fs)))
  /\ (forallb passes (rows_before idx (readlines data)) = true ->
      raised (for_rows 0 (firstn idx (readlines data))) = None
      /\ fst (_generate_examples filepath fs)
         = Gen (yielded (for_rows 0 (firstn idx (readlines data))))
               (Some IndexError)).
Proof.
  intros Hfs Hn Hidx Hf H0 Hlen.
  rewrite (generate_examples_lines _ _ _ Hfs), (for_rows_cut _ _ _ Hn).
  rewrite (short_row_turn idx line _ cells) by (assumption || lia).
  pose proof (prefix_indices idx (readlines data)) as Hlt.
  pose proof (rows_before_pass idx (readlines data) Hidx) as Hiff.
  unfold chain.
  destruct (for_rows 0 (firstn idx (readlines data))) as [ys [e|]];
    cbn [yielded raised raise] in *; rewrite ?app_nil_r.
  - split; [discriminate|]. split; [exact Hlt|].
    intros Hp. apply Hiff in Hp. discriminate Hp.
  - split; [discriminate|]. split; [exact Hlt|]. intros _. split; reflexivity.
Qed.

Lemma short_row_raises_witness :
  raised (fst (_generate_examples
                 "f" (one_file (header ++ row_a ++ row_short ++ row_a))))
  <> None
  /\ Forall (fun r => fst r < 2)
            (yielded (fst (_generate_examples
                 "f" (one_file (header ++ row_a ++ row_short ++ row_a)))))
  /\ (forallb passes
        (rows_before 2 (readlines (header ++ row_a ++ row_short ++ row_a)))
      = true ->
      raised (for_rows 0 (firstn 2
                (readlines (header ++ row_a ++ row_short ++ row_a)))) = None
      /\ fst (_generate_examples
                "f" (one_file (header ++ row_a ++ row_short ++ row_a)))
         = Gen (yielded (for_rows 0 (firstn 2
                  (readlines (header ++ row_a ++ row_short ++ row_a)))))
               (Some IndexError)).
Proof.
  apply (short_row_raises
           "f" (one_file (header ++ row_a ++ row_short ++ row_a))
           (header ++ row_a ++ row_short ++ row_a) 2 row_short
           (map ascii_str ["neutral"; "a"; "b"; "c"]%string)).
  - reflexivity.
  - reflexivity.
  - lia.
  - reflexivity.
  - discriminate.
  - simpl. lia.
Defined.

(** C5 as the specification words it fails: a short row marked ["-"] is
    skipped and the run ends without an exception. *)
Lemma short_dash_row_no_fault :
  ~ (forall (data : bytes) (idx : nat) (line : bytes) (cells : list str),
        nth_error (readlines data) idx = Some line ->
        1 <= idx ->
        fields line = Some cells ->
        List.length cells < 7 ->
        raised (fst (_generate_examples "f" (one_file data)))
        = Some IndexError).
Proof.
  intros H.
  specialize (H (header ++ row_dash_short ++ row_a) 1 row_dash_short
                (map ascii_str ["-"; "a"]%string)
                eq_refl (le_n 1) eq_refl).
  assert (Hlen : List.length (map ascii_str ["-"; "a"]%string) < 7)
    by (simpl; lia).
  specialize (H Hlen). vm_compute in H. discriminate H.
Qed.

(** C10.  A row that decodes always has a field 0, since splitting never
    gives an empty list; and when that field is ["-"] the row is skipped
    without an exception however few fields it has: its turn of the loop is
    just the step to the next row, and a run that reaches it goes on with the
    rows after it. *)
Theorem dash_row_skipped_without_fault (line : bytes) (cells : list str) :
  fields line = Some cells ->
  nth_error cells 0 = Some DASH ->
  getitem cells 0 = inr DASH
  /\ passes line = true
  /\ (forall (idx : nat) (rest : list bytes),
        idx <> 0 -> for_rows idx (line :: rest) = for_rows (S idx) rest)
  /\ (forall (filepath : string) (fs : filesystem) (data : bytes) (idx : nat),
        fs filepath = Some data ->
        nth_error (readlines data) idx = Some line ->
        1 <= idx ->
        forallb passes (rows_before idx (readlines data)) = true ->
        fst (_generate_examples filepath fs)
        = Gen (yielded (for_rows 0 (firstn idx (readlines data)))
               ++ yielded (for_rows (S idx) (skipn (S idx) (readlines data))))
              (raised (for_rows (S idx) (skipn (S idx) (readlines data))))).
Proof.
  intros Hf H0.
  assert (Hturn : forall idx rest,
             idx <> 0 -> for_rows idx (line :: rest) = for_rows (S idx) rest).
  { intros idx rest Hidx. rewrite (for_rows_cons _ _ _ Hidx), Hf, H0.
    destruct (str_eq_dec DASH DASH); [reflexivity | congruence]. }
  split; [now apply getitem_inr|]. split; [|split; [exact Hturn|]].
  - unfold passes. rewrite Hf. destruct cells as [|c cells]; [discriminate|].
    simpl in H0. inversion H0; subst c.
    destruct (str_eq_dec DASH DASH); [reflexivity | congruence].
  - intros filepath fs data idx Hfs Hn Hidx Hpre.
    rewrite (generate_examples_lines _ _ _ Hfs), (for_rows_cut _ _ _ Hn).
    apply (rows_before_pass _ _ Hidx) in Hpre. unfold chain. rewrite Hpre.
    rewrite Hturn by lia. reflexivity.
Qed.

Lemma dash_row_skipped_without_fault_witness :
  getitem (map ascii_str ["-"; "a"]%string) 0 = inr DASH
  /\ passes row_dash_short = true
  /\ (forall (idx : nat) (rest : list bytes),
        idx <> 0 ->
        for_rows idx (row_dash_short :: rest) = for_rows (S idx) rest)
  /\ (forall (filepath : string) (fs : filesystem) (data : bytes) (idx : nat),
        fs filepath = Some data ->
        nth_error (readlines data) idx = Some row_dash_short ->
        1 <= idx ->
        forallb passes (rows_before idx (readlines data)) = true ->
        fst (_generate_examples filepath fs)
        = Gen (yielded (for_rows 0 (firstn idx (readlines data)))
               ++ yielded (for_rows (S idx) (skipn (S idx) (readlines data))))
              (raised (for_rows (S idx) (skipn (S idx) (readlines data))))).
Proof.
  apply (dash_row_skipped_without_fault
           row_dash_short (map ascii_str ["-"; "a"]%string));
    reflexivity.
Defined.

End Faults.

(** ** Stripping, reading twice, the vocabulary text *)

Section Text.

Import Py MultiNLI.

Lemma strip_decompose (line : bytes) :
  exists pre post,
    line = pre ++ strip line ++ post /\
    forallb is_space pre = true /\ forallb is_space post = true.
Proof.
  destruct (lstrip_decompose line) as (pre & Hl & Hpre).
  destruct (rstrip_decompose (lstrip line)) as (post & Hr & Hpost).
  exists pre, post. unfold strip. rewrite <- Hr. auto.
Qed.

Lemma strip_head (line : bytes) (c : byte) (t : bytes) :
  strip line = c :: t -> is_space c = false.
Proof.
  unfold strip. destruct (lstrip line) as [|c0 t0] eqn:E.
  - discriminate.
  - pose proof (lstrip_head _ _ _ E) as Hc.
    rewrite (rstrip_cons _ _ Hc). intros H; inversion H; subst; exact Hc.
Qed.

Lemma fields_strip (line : bytes) : fields (strip line) = fields line.
Proof. unfold fields. now rewrite strip_idempotent. Qed.

Lemma for_rows_strip (idx : nat) (lines : list bytes) :
  for_rows idx (map strip lines) = for_rows idx lines.
Proof.
  revert idx. induction lines as [|line rest IH]; intros idx.
  - reflexivity.
  - cbn [map]. destruct idx as [|n].
    + rewrite !for_rows_header. apply IH.
    + rewrite !(for_rows_cons (S n)) by discriminate.
      rewrite fields_strip, IH. reflexivity.
Qed.

(** C7 (as amended).  Each line is stripped of ASCII whitespace at both
    ends, leading whitespace and leading tabs included, before it is decoded
    and split on the tab character: the fields are those of the stripped
    line, the stripped line is the line without a run of whitespace bytes in
    front and one behind, it neither starts nor ends with a whitespace byte,
    and the run of the loop is the same on the lines stripped beforehand. *)
Theorem line_stripped_at_both_ends (line : bytes) :
  fields line = match utf8_decode (strip line) with
                | Some t => Some (split TAB t)
                | None => None
                end
  /\ (exists pre post,
         line = pre ++ strip line ++ post /\
         forallb is_space pre = true /\ forallb is_space post = true)
  /\ (forall c t, strip line = c :: t -> is_space c = false)
  /\ (forall t c, strip line = t ++ [c] -> is_space c = false)
  /\ (forall idx before after,
         for_rows idx (before ++ strip line :: after)
         = for_rows idx (before ++ line :: after)).
Proof.
  split; [|split; [|split; [|split]]].
  - unfold fields, as_text. now destruct (utf8_decode (strip line)).
  - apply strip_decompose.
  - apply strip_head.
  - intros t c H. unfold strip in H. eapply rstrip_last; eauto.
  - intros idx before after.
    rewrite <- (for_rows_strip idx (before ++ line :: after)).
    rewrite <- (for_rows_strip idx (before ++ strip line :: after)).
    rewrite !map_app. cbn [map]. now rewrite strip_idempotent.
Qed.

(** C7 as the specification words it fails: leading whitespace is not
    kept, and a line that starts with a tab loses its empty first field. *)
Lemma leading_whitespace_not_kept :
  ~ (forall line : bytes, fields line = fields_as_specified line).
Proof.
  intros H. specialize (H row_lead). vm_compute in H. discriminate H.
Qed.

(** C8.  Reading leaves the file system as it was, and the run depends on
    the contents of the file only: a second call on the same unchanged file
    gives the same pairs in the same order and the same end. *)
Theorem generate_examples_deterministic
        (filepath : string) (fs fs' : filesystem) :
  fs' filepath = fs filepath ->
  snd (_generate_examples filepath fs) = fs
  /\ fst (_generate_examples filepath (snd (_generate_examples filepath fs)))
     = fst (_generate_examples filepath fs)
  /\ fst (_generate_examples filepath fs')
     = fst (_generate_examples filepath fs).
Proof.
  intros H. unfold _generate_examples, GFile_rb. cbn [fst snd].
  rewrite H. auto.
Qed.

Lemma generate_examples_deterministic_witness :
  snd (_generate_examples "f" (one_file (header ++ row_a)))
  = one_file (header ++ row_a)
  /\ fst (_generate_examples
            "f" (snd (_generate_examples "f" (one_file (header ++ row_a)))))
     = fst (_generate_examples "f" (one_file (header ++ row_a)))
  /\ fst (_generate_examples "f" (two_files (header ++ row_a) row_short))
     = fst (_generate_examples "f" (one_file (header ++ row_a))).
Proof.
  apply (generate_examples_deterministic
           "f" (one_file (header ++ row_a))
           (two_files (header ++ row_a) row_short)).
  reflexivity.
Defined.

(** C9.  The vocabulary text generator yields, for each pair the row
    generator yields on the same file and in the same order, the premise and
    the hypothesis joined by one space, and nothing else; it ends as the row
    generator does.  The corpus the builder takes the vocabulary from is
    this generator on the training file. *)
Theorem vocab_text_gen_joins (filepath : string) (fs : filesystem) :
  yielded (fst (_vocab_text_gen filepath fs))
  = map (fun r => premise (snd r) ++ [32%N] ++ hypothesis (snd r))
        (yielded (fst (_generate_examples filepath fs)))
  /\ raised (fst (_vocab_text_gen filepath fs))
     = raised (fst (_generate_examples filepath fs))
  /\ snd (_vocab_text_gen filepath fs) = fs
  /\ (forall dl_manager : DownloadManager,
        vocab_corpus dl_manager
        = _vocab_text_gen
            (gen_kwargs_filepath
               (hd {| name := EmptyString; gen_kwargs_filepath := EmptyString |}
                   (_split_generators dl_manager)))).
Proof.
  split; [|split; [|split; [|reflexivity]]]; revert filepath fs;
    intros filepath fs.
  - unfold _vocab_text_gen.
    destruct (_generate_examples filepath fs) as [g fs1].
    apply map_ext. intros [i ex]. reflexivity.
  - unfold _vocab_text_gen.
    now destruct (_generate_examples filepath fs) as [g fs1].
  - unfold _vocab_text_gen, _generate_examples, GFile_rb. reflexivity.
Qed.

End Text.

(** ** The split files *)

Section Splits.

Import Py MultiNLI.

Local Open Scope string_scope.

Lemma string_app_assoc (a b c : string) : (a ++ b) ++ c = a ++ (b ++ c).
Proof. induction a as [|x a IH]; simpl; [reflexivity | now rewrite IH]. Qed.

Lemma endswith_slash_app (a : string) (x : ascii) (b : string) :
  endswith_slash (a ++ String x b) = endswith_slash (String x b).
Proof.
  induction a as [|y a IH]; [reflexivity|].
  change (String y a ++ String x b) with (String y (a ++ String x b)).
  cbn [endswith_slash]. rewrite IH.
  destruct (a ++ String x b) eqn:E; [|reflexivity].
  destruct a; discriminate.
Qed.

Lemma path_join_relative (a p : string) :
  startswith_slash p = false -> path_join a p = a ++ sep_after a ++ p.
Proof.
  intros H. unfold path_join, sep_after. rewrite H.
  destruct (match a with EmptyString => true | _ => endswith_slash a end);
    reflexivity.
Qed.

(** Joining a directory name and then a file name is joining the relative
    path made of both. *)
Lemma path_join_twice (a : string) (x : ascii) (d f : string) :
  startswith_slash (String x d) = false ->
  endswith_slash (String x d) = false ->
  startswith_slash f = false ->
  path_join (path_join a (String x d)) f
  = path_join a (String x d ++ "/" ++ f).
Proof.
  intros Hs He Hf.
  rewrite (path_join_relative a (String x d) Hs).
  rewrite (path_join_relative a (String x d ++ "/" ++ f)) by exact Hs.
  rewrite (path_join_relative _ f Hf).
  assert (Hsep : sep_after (a ++ sep_after a ++ String x d) = "/").
  { unfold sep_after at 1. rewrite <- string_app_assoc.
    rewrite endswith_slash_app, He.
    destruct ((a ++ sep_after a) ++ String x d) eqn:E; [|reflexivity].
    destruct (a ++ sep_after a); discriminate. }
  rewrite Hsep. now rewrite !string_app_assoc.
Qed.

(** C6.  For every download root, [_split_generators] returns exactly three
    splits, [train], [validation_matched] and [validation_mismatched] in that
    order, whose files are the root joined with the fixed relative paths,
    that is the root, a separator unless the root is empty or ends with one,
    and the relative path. *)
Theorem split_generators_paths (dl_manager : DownloadManager) :
  _split_generators dl_manager
  = [ {| name := "train";
         gen_kwargs_filepath :=
           path_join (download_and_extract dl_manager _URL)
                     "multinli_1.0/multinli_1.0_train.txt" |};
      {| name := "validation_matched";
         gen_kwargs_filepath :=
           path_join (download_and_extract dl_manager _URL)
                     "multinli_1.0/multinli_1.0_dev_matched.txt" |};
      {| name := "validation_mismatched";
         gen_kwargs_filepath :=
           path_join (download_and_extract dl_manager _URL)
                     "multinli_1.0/multinli_1.0_dev_mismatched.txt" |} ]
  /\ map gen_kwargs_filepath (_split_generators dl_manager)
     = map (fun rel =>
              download_and_extract dl_manager _URL
              ++ sep_after (download_and_extract dl_manager _URL) ++ rel)
           [ "multinli_1.0/multinli_1.0_train.txt";
             "multinli_1.0/multinli_1.0_dev_matched.txt";
             "multinli_1.0/multinli_1.0_dev_mismatched.txt" ]
  /\ map gen_kwargs_filepath (_split_generators (extracted_to "/data/mnli"))
     = [ "/data/mnli/multinli_1.0/multinli_1.0_train.txt";
         "/data/mnli/multinli_1.0/multinli_1.0_dev_matched.txt";
         "/data/mnli/multinli_1.0/multinli_1.0_dev_mismatched.txt" ].
Proof.
  set (root := download_and_extract dl_manager _URL).
  assert (H : _split_generators dl_manager
    = [ {| name := "train";
           gen_kwargs_filepath :=
             path_join root "multinli_1.0/multinli_1.0_train.txt" |};
        {| name := "validation_matched";
           gen_kwargs_filepath :=
             path_join root "multinli_1.0/multinli_1.0_dev_matched.txt" |};
        {| name := "validation_mismatched";
           gen_kwargs_filepath :=
             path_join root
                       "multinli_1.0/multinli_1.0_dev_mismatched.txt" |} ]).
  { unfold _split_generators, train_path, matched_validation_path,
      mismatched_validation_path, mnli_path, Split_TRAIN. fold root.
    rewrite !path_join_twice by reflexivity. reflexivity. }
  split; [exact H|]. split; [|reflexivity].
  rewrite H. cbn [map gen_kwargs_filepath].
  rewrite !path_join_relative by reflexivity. reflexivity.
Qed.

End Splits.

(** ** The run as a whole *)

Section WholeRun.

Import Py MultiNLI.

(** The turn of the loop on a row that passes. *)
Lemma passing_turn (idx : nat) (line : bytes) (rest : list bytes) :
  idx <> 0 -> passes line = true ->
  for_rows idx (line :: rest) =
  match row_example line with
  | Some ex => yield (idx, ex) (for_rows (S idx) rest)
  | None => for_rows (S idx) rest
  end.
Proof.
  intros Hidx Hp. rewrite (for_rows_cons _ _ _ Hidx).
  unfold passes in Hp. unfold row_example.
  destruct (fields line) as [cells|]; [|discriminate].
  destruct cells as [|first cells]; [discriminate|].
  change (nth_error (first :: cells) 0) with (Some first).
  cbv beta iota in Hp |- *.
  destruct (str_eq_dec first DASH) as [Hd|Hd].
  - destruct (nth_error (first :: cells) 5); [|reflexivity].
    destruct (nth_error (first :: cells) 6); reflexivity.
  - apply Nat.leb_le in Hp.
    destruct (nth_error (first :: cells) 5) eqn:H5.
    + destruct (nth_error (first :: cells) 6) eqn:H6; [reflexivity|].
      apply nth_error_None in H6. lia.
    + apply nth_error_None in H5. lia.
Qed.

Lemma for_rows_clean (idx : nat) (lines : list bytes) :
  idx <> 0 -> forallb passes lines = true ->
  for_rows idx lines
  = Gen (flat_map pair_of_row (combine (seq idx (List.length lines)) lines))
        None.
Proof.
  revert idx. induction lines as [|line rest IH]; intros idx Hidx Hp.
  - reflexivity.
  - cbn [forallb] in Hp. apply andb_true_iff in Hp. destruct Hp as [Hl Hr].
    rewrite (passing_turn _ _ _ Hidx Hl).
    cbn [List.length seq combine flat_map]. unfold pair_of_row at 1.
    cbn [fst snd]. rewrite (IH (S idx)) by (lia || assumption).
    destruct (row_example line); reflexivity.
Qed.

Lemma for_rows_sorted (idx : nat) (lines : list bytes) :
  StronglySorted lt (map fst (yielded (for_rows idx lines))).
Proof.
  revert idx. induction lines as [|line rest IH]; intros idx.
  - constructor.
  - destruct idx as [|n]; [rewrite for_rows_header; apply IH|].
    rewrite (for_rows_cons (S n)) by discriminate.
    destruct (fields line) as [cells|]; [|constructor].
    destruct (nth_error cells 0) as [first|]; [|constructor].
    destruct (str_eq_dec first DASH); [apply IH|].
    destruct (nth_error cells 5); [|constructor].
    destruct (nth_error cells 6); [|constructor].
    cbn [yield yielded map fst]. constructor; [apply IH|].
    apply Forall_map. eapply Forall_impl; [|apply (suffix_indices (S n))].
    intros r Hr. exact Hr.
Qed.

Lemma for_rows_count (idx : nat) (lines : list bytes) :
  List.length (yielded (for_rows idx lines))
  <= List.length lines - (if Nat.eqb idx 0 then 1 else 0).
Proof.
  revert idx. induction lines as [|line rest IH]; intros idx.
  - simpl. lia.
  - destruct idx as [|n].
    + rewrite for_rows_header. specialize (IH 1). simpl in *. lia.
    + rewrite (for_rows_cons (S n)) by discriminate.
      specialize (IH (S (S n))). cbn [Nat.eqb List.length] in *.
      destruct (fields line) as [cells|]; [|simpl; lia].
      destruct (nth_error cells 0) as [first|]; [|simpl; lia].
      destruct (str_eq_dec first DASH); [lia|].
      destruct (nth_error cells 5); [|simpl; lia].
      destruct (nth_error cells 6); [|simpl; lia].
      cbn [yield yielded List.length]. lia.
Qed.

Lemma strongly_sorted_nodup (l : list nat) : StronglySorted lt l -> NoDup l.
Proof.
  induction 1 as [|a l Hs IH Hall]; constructor; [|exact IH].
  intros Hin. rewrite Forall_forall in Hall. specialize (Hall _ Hin). lia.
Qed.

Lemma for_rows_never_not_found (idx : nat) (lines : list bytes) :
  raised (for_rows idx lines) <> Some NotFoundError.
Proof.
  revert idx. induction lines as [|line rest IH]; intros idx.
  - discriminate.
  - destruct idx as [|n]; [rewrite for_rows_header; apply IH|].
    rewrite (for_rows_cons (S n)) by discriminate.
    destruct (fields line) as [cells|]; [|discriminate].
    destruct (nth_error cells 0) as [first|]; [|discriminate].
    destruct (str_eq_dec first DASH); [apply IH|].
    destruct (nth_error cells 5); [|discriminate].
    destruct (nth_error cells 6); [|discriminate].
    apply IH.
Qed.

Lemma readlines_one (l : bytes) :
  existsb (Byte.eqb x0a) l = false ->
  readlines l = match drop_cr l with [] => [] | _ :: _ => [drop_cr l] end.
Proof.
  induction l as [|c l IH]; [reflexivity|]. intros H.
  cbn [existsb] in H. apply orb_false_elim in H. destruct H as [Hc Hl].
  cbn [readlines]. rewrite byte_eqb_sym, Hc, (IH Hl).
  unfold drop_cr. cbn [filter]. fold (drop_cr l).
  destruct (Byte.eqb c x0d); cbn [negb]; [reflexivity|].
  destruct (drop_cr l); reflexivity.
Qed.

End WholeRun.

(** ** More on the row generator *)

Section MoreRows.

Import Py MultiNLI.

(** X1.  The run on a file ends without an exception exactly when every
    data row passes (it decodes and is marked ["-"] or has seven fields), and
    then it yields, in file order, exactly one pair for each data row that is
    not marked ["-"]: the line number and the Example of the row. *)
Theorem clean_file_comprehension
        (filepath : string) (fs : filesystem) (data : bytes) :
  fs filepath = Some data ->
  (raised (fst (_generate_examples filepath fs)) = None <->
   forallb passes (skipn 1 (readlines data)) = true)
  /\ (forallb passes (skipn 1 (readlines data)) = true ->
      fst (_generate_examples filepath fs)
      = Gen (comprehension (readlines data)) None).
Proof.
  intros Hfs. rewrite (generate_examples_lines _ _ _ Hfs).
  destruct (readlines data) as [|hd lines].
  - split; [split; reflexivity | reflexivity].
  - rewrite for_rows_header. cbn [skipn]. split.
    + apply for_rows_raised. discriminate.
    + intros Hp. rewrite (for_rows_clean 1 lines) by (discriminate || exact Hp).
      reflexivity.
Qed.

Lemma clean_file_comprehension_witness :
  (raised (fst (_generate_examples
                  "f" (one_file (header ++ row_dash_short ++ row_a))))
   = None <->
   forallb passes (skipn 1 (readlines (header ++ row_dash_short ++ row_a)))
   = true)
  /\ (forallb passes
        (skipn 1 (readlines (header ++ row_dash_short ++ row_a))) = true ->
      fst (_generate_examples
             "f" (one_file (header ++ row_dash_short ++ row_a)))
      = Gen (comprehension (readlines (header ++ row_dash_short ++ row_a)))
            None).
Proof.
  apply (clean_file_comprehension
           "f" (one_file (header ++ row_dash_short ++ row_a))
           (header ++ row_dash_short ++ row_a)).
  reflexivity.
Defined.

(** X2.  The indices of the pairs yielded increase strictly, so no key is
    yielded twice; each lies between 1 and the number of lines of the file,
    and there are at most as many pairs as data rows. *)
Theorem emitted_indices_increase
        (filepath : string) (fs : filesystem) (data : bytes) :
  fs filepath = Some data ->
  StronglySorted lt
    (map fst (yielded (fst (_generate_examples filepath fs))))
  /\ NoDup (map fst (yielded (fst (_generate_examples filepath fs))))
  /\ Forall (fun r => 1 <= fst r < List.length (readlines data))
            (yielded (fst (_generate_examples filepath fs)))
  /\ List.length (yielded (fst (_generate_examples filepath fs)))
     <= List.length (readlines data) - 1.
Proof.
  intros Hfs. rewrite (generate_examples_lines _ _ _ Hfs).
  split; [apply for_rows_sorted|].
  split; [apply strongly_sorted_nodup, for_rows_sorted|]. split.
  - apply Forall_forall. intros r Hr.
    pose proof (for_rows_lower 0 (readlines data)) as Hlo.
    pose proof (for_rows_upper 0 (readlines data)) as Hup.
    rewrite Forall_forall in Hlo, Hup.
    specialize (Hlo _ Hr). specialize (Hup _ Hr). simpl in Hup. lia.
  - apply (for_rows_count 0).
Qed.

Lemma emitted_indices_increase_witness :
  StronglySorted lt
    (map fst (yielded (fst (_generate_examples
       "f" (one_file (header ++ row_a ++ row_dash ++ row_a))))))
  /\ NoDup (map fst (yielded (fst (_generate_examples
       "f" (one_file (header ++ row_a ++ row_dash ++ row_a))))))
  /\ Forall (fun r => 1 <= fst r
               < List.length
                   (readlines (header ++ row_a ++ row_dash ++ row_a)))
            (yielded (fst (_generate_examples
               "f" (one_file (header ++ row_a ++ row_dash ++ row_a)))))
  /\ List.length (yielded (fst (_generate_examples
       "f" (one_file (header ++ row_a ++ row_dash ++ row_a)))))
     <= List.length (readlines (header ++ row_a ++ row_dash ++ row_a)) - 1.
Proof.
  apply (emitted_indices_increase
           "f" (one_file (header ++ row_a ++ row_dash ++ row_a))
           (header ++ row_a ++ row_dash ++ row_a)).
  reflexivity.
Defined.

(** X3.  A data row that is not valid UTF-8 once stripped ends the run with
    [UnicodeDecodeError] when the rows before it pass, and what was yielded
    is what those rows gave.  The row is decoded before its first field is
    looked at, so this holds for a row that starts with ["-"] too. *)
Theorem undecodable_row_raises
        (filepath : string) (fs : filesystem) (data : bytes)
        (idx : nat) (line : bytes) :
  fs filepath = Some data ->
  nth_error (readlines data) idx = Some line ->
  1 <= idx ->
  utf8_decode (strip line) = None ->
  forallb passes (rows_before idx (readlines data)) = true ->
  fst (_generate_examples filepath fs)
  = Gen (yielded (for_rows 0 (firstn idx (readlines data))))
        (Some UnicodeDecodeError).
Proof.
  intros Hfs Hn Hidx Hdec Hpre.
  rewrite (generate_examples_lines _ _ _ Hfs), (for_rows_cut _ _ _ Hn).
  apply (rows_before_pass _ _ Hidx) in Hpre. unfold chain. rewrite Hpre.
  rewrite for_rows_cons by lia. unfold fields, as_text. rewrite Hdec.
  cbn [yielded raised raise]. now rewrite app_nil_r.
Qed.

Lemma undecodable_row_raises_witness :
  fst (_generate_examples
         "f" (one_file (header ++ row_a ++ row_bad_utf8 ++ row_a)))
  = Gen (yielded (for_rows 0 (firstn 2
           (readlines (header ++ row_a ++ row_bad_utf8 ++ row_a)))))
        (Some UnicodeDecodeError).
Proof.
  apply (undecodable_row_raises
           "f" (one_file (header ++ row_a ++ row_bad_utf8 ++ row_a))
           (header ++ row_a ++ row_bad_utf8 ++ row_a) 2 row_bad_utf8).
  - reflexivity.
  - reflexivity.
  - lia.
  - reflexivity.
  - reflexivity.
Defined.

Lemma for_rows_cause (idx : nat) (lines : list bytes) (e : exn) :
  raised (for_rows idx lines) = Some e ->
  exists j line,
    nth_error lines j = Some line /\ idx + j <> 0 /\
    ((e = UnicodeDecodeError /\ fields line = None) \/
     (e = IndexError /\
      exists cells, fields line = Some cells /\
                    nth_error cells 0 <> Some DASH /\
                    List.length cells < 7)).
Proof.
  revert idx. induction lines as [|line rest IH]; intros idx Hr.
  - discriminate Hr.
  - assert (Hnext : raised (for_rows (S idx) rest) = Some e ->
      exists j line0,
        nth_error (line :: rest) j = Some line0 /\ idx + j <> 0 /\
        ((e = UnicodeDecodeError /\ fields line0 = None) \/
         (e = IndexError /\
          exists cells, fields line0 = Some cells /\
                        nth_error cells 0 <> Some DASH /\
                        List.length cells < 7))).
    { intros H. destruct (IH _ H) as (j & l & Hn & Hj & Hc).
      exists (S j), l. split; [exact Hn|]. split; [lia | exact Hc]. }
    destruct idx as [|n]; [exact (Hnext Hr)|].
    rewrite (for_rows_cons (S n)) in Hr by discriminate.
    destruct (fields line) as [cells|] eqn:Hf.
    + destruct (fields_first _ _ Hf) as (first & H0). rewrite H0 in Hr.
      destruct (str_eq_dec first DASH) as [|Hd]; [exact (Hnext Hr)|].
      assert (Hshort : List.length cells < 7 ->
        exists j line0,
          nth_error (line :: rest) j = Some line0 /\ S n + j <> 0 /\
          ((IndexError = UnicodeDecodeError /\ fields line0 = None) \/
           (IndexError = IndexError /\
            exists cells0, fields line0 = Some cells0 /\
                           nth_error cells0 0 <> Some DASH /\
                           List.length cells0 < 7))).
      { intros Hlen. exists 0, line. split; [reflexivity|]. split; [lia|].
        right. split; [reflexivity|]. exists cells.
        split; [exact Hf|]. split; [congruence | exact Hlen]. }
      destruct (nth_error cells 5) eqn:H5.
      * destruct (nth_error cells 6) eqn:H6; [exact (Hnext Hr)|].
        inversion Hr; subst e. apply Hshort.
        apply nth_error_None in H6. lia.
      * inversion Hr; subst e. apply Hshort.
        apply nth_error_None in H5. lia.
    + inversion Hr; subst e. exists 0, line.
      split; [reflexivity|]. split; [lia|]. left.
      split; [reflexivity | exact Hf].
Qed.

(** X4.  Every exception of a run on a file that exists has a cause among
    the data rows: [UnicodeDecodeError] comes from a data row that does not
    decode, [IndexError] from a data row that decodes, is not marked ["-"]
    and has fewer than seven fields.  No other exception is raised. *)
Theorem exception_has_a_cause
        (filepath : string) (fs : filesystem) (data : bytes) (e : exn) :
  fs filepath = Some data ->
  raised (fst (_generate_examples filepath fs)) = Some e ->
  exists idx line,
    nth_error (readlines data) idx = Some line /\ 1 <= idx /\
    ((e = UnicodeDecodeError /\ fields line = None) \/
     (e = IndexError /\
      exists cells, fields line = Some cells /\
                    nth_error cells 0 <> Some DASH /\
                    List.length cells < 7)).
Proof.
  intros Hfs Hr. rewrite (generate_examples_lines _ _ _ Hfs) in Hr.
  destruct (for_rows_cause _ _ _ Hr) as (j & line & Hn & Hj & Hc).
  exists j, line. split; [exact Hn|]. split; [lia | exact Hc].
Qed.

Lemma exception_has_a_cause_witness :
  exists idx line,
    nth_error (readlines (header ++ row_a ++ row_short)) idx = Some line /\
    1 <= idx /\
    ((IndexError = UnicodeDecodeError /\ fields line = None) \/
     (IndexError = IndexError /\
      exists cells, fields line = Some cells /\
                    nth_error cells 0 <> Some DASH /\
                    List.length cells < 7)).
Proof.
  apply (exception_has_a_cause
           "f" (one_file (header ++ row_a ++ row_short))
           (header ++ row_a ++ row_short) IndexError).
  - reflexivity.
  - reflexivity.
Defined.

(** X5.  A data row counts through its fields 0, 5 and 6 only: two rows that
    agree on these three give the same run, whatever their other columns and
    however many columns follow (the matched and mismatched files carry more
    columns than the training file). *)
Theorem only_fields_0_5_6_matter
        (idx : nat) (before after : list bytes) (line line' : bytes)
        (cells cells' : list str) :
  idx + List.length before <> 0 ->
  fields line = Some cells ->
  fields line' = Some cells' ->
  nth_error cells 0 = nth_error cells' 0 ->
  nth_error cells 5 = nth_error cells' 5 ->
  nth_error cells 6 = nth_error cells' 6 ->
  for_rows idx (before ++ line :: after)
  = for_rows idx (before ++ line' :: after).
Proof.
  intros Hidx Hf Hf' H0 H5 H6. rewrite !for_rows_app. f_equal.
  rewrite !for_rows_cons by exact Hidx.
  now rewrite Hf, Hf', H0, H5, H6.
Qed.

Lemma only_fields_0_5_6_matter_witness :
  for_rows 0 ([header; row_dash] ++ row_a :: [row_odd_label])
  = for_rows 0 ([header; row_dash] ++ row_a_wide :: [row_odd_label]).
Proof.
  apply (only_fields_0_5_6_matter
           0 [header; row_dash] [row_odd_label] row_a row_a_wide
           row_a_cells
           (map ascii_str
                ["entailment"; "w"; "x"; "y"; "z"; "The cat sat.";
                 "A cat was sitting."; "1"; "2"; "3"; "4"]%string)).
  - simpl. lia.
  - reflexivity.
  - reflexivity.
  - reflexivity.
  - reflexivity.
  - reflexivity.
Defined.

(** X6.  A file with no line after the header, empty or one line long with
    or without its end of line, gives no pair and no exception, whatever the
    bytes of that line. *)
Theorem header_only_file_is_empty
        (filepath : string) (fs : filesystem) (hd : bytes) :
  existsb (Byte.eqb x0a) hd = false ->
  fs filepath = Some hd \/ fs filepath = Some (hd ++ [x0a]) ->
  fst (_generate_examples filepath fs) = stop.
Proof.
  intros Hhd [Hfs|Hfs]; rewrite (generate_examples_lines _ _ _ Hfs).
  - rewrite (readlines_one _ Hhd). now destruct (drop_cr hd).
  - now rewrite (readlines_line hd [] Hhd).
Qed.

Lemma header_only_file_is_empty_witness :
  fst (_generate_examples "f" (one_file ([xff; x09] ++ [x0a]))) = stop.
Proof.
  apply (header_only_file_is_empty "f" (one_file ([xff; x09] ++ [x0a]))
                                   [xff; x09]).
  - reflexivity.
  - right. reflexivity.
Defined.

End MoreRows.

(** ** Lines, ends of line and fields *)

Section Lines.

Import Py MultiNLI.

Lemma lstrip_app_space (pre x : bytes) :
  forallb is_space pre = true -> lstrip (pre ++ x) = lstrip x.
Proof.
  induction pre as [|c pre IH]; [reflexivity|]. cbn [forallb app lstrip].
  intros H. apply andb_true_iff in H. destruct H as [Hc Hp].
  rewrite Hc. exact (IH Hp).
Qed.

Lemma lstrip_nil (x : bytes) : lstrip x = [] -> forallb is_space x = true.
Proof.
  induction x as [|c x IH]; [reflexivity|]. cbn [lstrip forallb].
  destruct (is_space c); [exact IH | discriminate].
Qed.

Lemma lstrip_app_cons (x post : bytes) (c : byte) (t : bytes) :
  lstrip x = c :: t -> lstrip (x ++ post) = lstrip x ++ post.
Proof.
  induction x as [|d x IH]; [discriminate|]. cbn [lstrip app].
  destruct (is_space d); [exact IH | reflexivity].
Qed.

Lemma forallb_rev {A} (f : A -> bool) (l : list A) :
  forallb f l = true -> forallb f (rev l) = true.
Proof.
  rewrite !forallb_forall. intros H x Hx. apply H. now apply in_rev.
Qed.

Lemma rstrip_app_space (x post : bytes) :
  forallb is_space post = true -> rstrip (x ++ post) = rstrip x.
Proof.
  intros H. unfold rstrip. rewrite rev_app_distr.
  now rewrite (lstrip_app_space _ _ (forallb_rev _ _ H)).
Qed.

Lemma strip_app_space (x post : bytes) :
  forallb is_space post = true -> strip (x ++ post) = strip x.
Proof.
  intros H. unfold strip. destruct (lstrip x) as [|c t] eqn:E.
  - rewrite (lstrip_app_space _ _ (lstrip_nil _ E)).
    destruct (lstrip_decompose post) as (pre & Hpost & _).
    assert (Hl : lstrip post = []).
    { destruct (lstrip post) as [|d u] eqn:E'; [reflexivity|].
      pose proof (lstrip_head _ _ _ E') as Hd.
      rewrite forallb_forall in H. rewrite (H d) in Hd; [discriminate|].
      rewrite Hpost. apply in_or_app. right. now left. }
    now rewrite Hl.
  - rewrite (lstrip_app_cons _ post _ _ E), E. now apply rstrip_app_space.
Qed.

Lemma for_rows_same_strip (idx : nat) (lines lines' : list bytes) :
  map strip lines = map strip lines' ->
  for_rows idx lines = for_rows idx lines'.
Proof.
  intros H. rewrite <- (for_rows_strip idx lines).
  rewrite <- (for_rows_strip idx lines'). now rewrite H.
Qed.

Lemma existsb_newline_app (x y : bytes) :
  existsb (Byte.eqb x0a) x = false ->
  existsb (Byte.eqb x0a) y = false ->
  existsb (Byte.eqb x0a) (x ++ y) = false.
Proof. intros Hx Hy. now rewrite existsb_app, Hx, Hy. Qed.

Lemma drop_cr_space (s : bytes) :
  forallb is_space s = true -> forallb is_space (drop_cr s) = true.
Proof.
  rewrite !forallb_forall. intros H x Hx. apply H.
  unfold drop_cr in Hx. apply filter_In in Hx. tauto.
Qed.

Lemma readlines_unlines (eol : bytes) (rows : list bytes) :
  forallb no_newline rows = true ->
  no_newline eol = true ->
  readlines (unlines (eol ++ [x0a]) rows)
  = map (fun r => drop_cr (r ++ eol) ++ [x0a]) rows.
Proof.
  intros Hrows Heol. apply negb_true_iff in Heol.
  induction rows as [|r rows IH]; [reflexivity|].
  cbn [forallb] in Hrows. apply andb_true_iff in Hrows.
  destruct Hrows as [Hr Hrows]. apply negb_true_iff in Hr.
  unfold unlines. cbn [map List.concat]. fold (unlines (eol ++ [x0a]) rows).
  replace ((r ++ eol ++ [x0a]) ++ unlines (eol ++ [x0a]) rows)
    with ((r ++ eol) ++ x0a :: unlines (eol ++ [x0a]) rows)
    by (now rewrite <- !app_assoc).
  rewrite (readlines_line _ _ (existsb_newline_app _ _ Hr Heol)).
  now rewrite (IH Hrows).
Qed.

(** A file that ends with a newline and is not empty has a line. *)
Lemma readlines_some (data : bytes) :
  ends_with_newline data = true -> data <> [] -> readlines data <> [].
Proof.
  unfold ends_with_newline.
  induction data as [|c d IH]; intros He Hne; [congruence|].
  cbn [readlines]. destruct (Byte.eqb c x0a); [discriminate|].
  destruct (Byte.eqb c x0d) eqn:Hcr.
  - destruct d as [|c' d'].
    + cbn [last] in He. apply Byte.byte_dec_bl in Hcr, He. congruence.
    + apply IH; [exact He | discriminate].
  - destruct (readlines d); discriminate.
Qed.

Lemma readlines_app (data more : bytes) :
  ends_with_newline data = true ->
  readlines (data ++ more) = readlines data ++ readlines more.
Proof.
  induction data as [|c d IH]; [reflexivity|]. intros H.
  destruct d as [|c' d'].
  - unfold ends_with_newline in H. cbn [last] in H.
    cbn [app readlines]. now rewrite H.
  - assert (Hd : ends_with_newline (c' :: d') = true) by exact H.
    specialize (IH Hd). change ((c :: c' :: d') ++ more)
      with (c :: ((c' :: d') ++ more)).
    pose proof (readlines_some _ Hd) as Hsome.
    remember (c' :: d') as d eqn:Ed. cbn [readlines]. rewrite IH.
    destruct (Byte.eqb c x0a); [reflexivity|].
    destruct (Byte.eqb c x0d); [reflexivity|].
    destruct (readlines d) as [|l ls] eqn:E; [|reflexivity].
    exfalso. apply Hsome; [subst d; discriminate | reflexivity].
Qed.

Lemma join_split (sep : N) (t : str) : join [sep] (split sep t) = t.
Proof.
  induction t as [|c t IH]; [reflexivity|]. cbn [split].
  destruct (split_cons sep t) as (f & fs & E). rewrite E in *.
  destruct (N.eqb c sep) eqn:Hc.
  - apply N.eqb_eq in Hc. subst c.
    change (join [sep] ([] :: f :: fs))
      with ([] ++ [sep] ++ join [sep] (f :: fs)).
    now rewrite IH.
  - rewrite <- IH. destruct fs as [|g fs]; reflexivity.
Qed.

Lemma split_no_sep (sep : N) (t : str) :
  Forall (fun f => ~ In sep f) (split sep t).
Proof.
  induction t as [|c t IH]; cbn [split].
  - constructor; [intros [] | constructor].
  - destruct (N.eqb c sep) eqn:Hc.
    + constructor; [intros [] | exact IH].
    + apply N.eqb_neq in Hc. destruct (split sep t) as [|f fs].
      * constructor; [|constructor]. intros [H|[]]. congruence.
      * inversion IH as [|? ? Hf Hfs]; subst. constructor; [|exact Hfs].
        intros [H|H]; [congruence | exact (Hf H)].
Qed.

Lemma split_count (sep : N) (t : str) :
  List.length (split sep t) = S (count_occ N.eq_dec t sep).
Proof.
  induction t as [|c t IH]; [reflexivity|]. cbn [split count_occ].
  destruct (split_cons sep t) as (f & fs & E). rewrite E in *.
  destruct (N.eqb c sep) eqn:Hc.
  - apply N.eqb_eq in Hc. destruct (N.eq_dec c sep); [|contradiction].
    cbn [List.length] in *. now rewrite IH.
  - apply N.eqb_neq in Hc. destruct (N.eq_dec c sep); [contradiction|].
    exact IH.
Qed.

Lemma split_member (sep : N) (t : str) (f : str) (c : N) :
  In f (split sep t) -> In c f -> In c t.
Proof.
  revert f. induction t as [|d t IH]; cbn [split]; intros f Hf Hc.
  - destruct Hf as [<-|[]]. destruct Hc.
  - destruct (N.eqb d sep).
    + destruct Hf as [<-|Hf]; [destruct Hc|]. right. eapply IH; eauto.
    + destruct (split sep t) as [|g gs].
      * destruct Hf as [<-|[]]. destruct Hc as [<-|[]]. now left.
      * destruct Hf as [<-|Hf].
        -- destruct Hc as [<-|Hc]; [now left|]. right.
           apply (IH g); [now left | exact Hc].
        -- right. apply (IH f); [now right | exact Hc].
Qed.

Lemma string_app_inv (a x y : string) :
  (a ++ x)%string = (a ++ y)%string -> x = y.
Proof.
  induction a as [|c a IH]; [trivial|]. simpl. intros H.
  inversion H. auto.
Qed.

End Lines.

(** ** Files, ends of line and split paths *)

Section MoreFiles.

Import Py MultiNLI.

(** X7.  The whitespace that ends the lines does not count: a file written
    from the same rows with another end of line made of whitespace and a
    newline, carriage return and newline instead of newline alone for one,
    gives the same run. *)
Theorem end_of_line_whitespace_irrelevant
        (filepath : string) (fs fs' : filesystem)
        (rows : list bytes) (eol eol' : bytes) :
  forallb no_newline rows = true ->
  forallb is_space eol = true -> no_newline eol = true ->
  forallb is_space eol' = true -> no_newline eol' = true ->
  fs filepath = Some (unlines (eol ++ [x0a]) rows) ->
  fs' filepath = Some (unlines (eol' ++ [x0a]) rows) ->
  fst (_generate_examples filepath fs)
  = fst (_generate_examples filepath fs').
Proof.
  intros Hrows Hs Hn Hs' Hn' Hfs Hfs'.
  rewrite (generate_examples_lines _ _ _ Hfs),
          (generate_examples_lines _ _ _ Hfs').
  rewrite !readlines_unlines by assumption.
  apply for_rows_same_strip. rewrite !map_map. apply map_ext. intros r.
  unfold drop_cr. rewrite !filter_app, <- !app_assoc.
  rewrite !strip_app_space; [reflexivity| |].
  - rewrite forallb_app. fold (drop_cr eol'). now rewrite (drop_cr_space _ Hs').
  - rewrite forallb_app. fold (drop_cr eol). now rewrite (drop_cr_space _ Hs).
Qed.

Lemma end_of_line_whitespace_irrelevant_witness :
  fst (_generate_examples
         "f" (one_file (unlines ([x0d] ++ [x0a]) plain_rows)))
  = fst (_generate_examples
           "f" (one_file (unlines ([] ++ [x0a]) plain_rows))).
Proof.
  apply (end_of_line_whitespace_irrelevant
           "f" (one_file (unlines ([x0d] ++ [x0a]) plain_rows))
           (one_file (unlines ([] ++ [x0a]) plain_rows))
           plain_rows [x0d] []);
    reflexivity.
Defined.

(** X8.  Lines appended to a file whose last line is complete leave the
    pairs of the file as they are: the run on the longer file is the run on
    the file followed, when that one ended without an exception, by the turns
    of the loop on the new lines, numbered from where the file ended. *)
Theorem appended_lines_keep_earlier_pairs
        (filepath : string) (fs fs' : filesystem) (data more : bytes) :
  ends_with_newline data = true ->
  fs filepath = Some data ->
  fs' filepath = Some (data ++ more) ->
  fst (_generate_examples filepath fs')
  = chain (fst (_generate_examples filepath fs))
          (for_rows (List.length (readlines data)) (readlines more))
  /\ exists later,
       yielded (fst (_generate_examples filepath fs'))
       = yielded (fst (_generate_examples filepath fs)) ++ later.
Proof.
  intros He Hfs Hfs'.
  rewrite (generate_examples_lines _ _ _ Hfs),
          (generate_examples_lines _ _ _ Hfs').
  rewrite (readlines_app _ more He), for_rows_app. split; [reflexivity|].
  unfold chain. destruct (raised (for_rows 0 (readlines data))).
  - exists []. now rewrite app_nil_r.
  - eexists. reflexivity.
Qed.

Lemma appended_lines_keep_earlier_pairs_witness :
  fst (_generate_examples
         "f" (one_file ((header ++ row_a) ++ row_dash ++ row_odd_label)))
  = chain (fst (_generate_examples "f" (one_file (header ++ row_a))))
          (for_rows (List.length (readlines (header ++ row_a)))
                    (readlines (row_dash ++ row_odd_label)))
  /\ exists later,
       yielded (fst (_generate_examples
          "f" (one_file ((header ++ row_a) ++ row_dash ++ row_odd_label))))
       = yielded (fst (_generate_examples "f" (one_file (header ++ row_a))))
         ++ later.
Proof.
  apply (appended_lines_keep_earlier_pairs
           "f" (one_file (header ++ row_a))
           (one_file ((header ++ row_a) ++ row_dash ++ row_odd_label))
           (header ++ row_a) (row_dash ++ row_odd_label));
    reflexivity.
Defined.

(** X9.  Splitting loses nothing: the fields of a row, joined again with
    tabs, are the decoded stripped line; no field holds a tab; and there is
    one field more than there are tabs in that line. *)
Theorem fields_join_back (line : bytes) (cells : list str) :
  fields line = Some cells ->
  utf8_decode (strip line) = Some (join [TAB] cells)
  /\ Forall (fun f => ~ In TAB f) cells
  /\ List.length cells = S (count_occ N.eq_dec (join [TAB] cells) TAB).
Proof.
  unfold fields, as_text.
  destruct (utf8_decode (strip line)) as [t|]; [|discriminate].
  intros H. inversion H; subst cells. rewrite join_split.
  split; [reflexivity|]. split; [apply split_no_sep | apply split_count].
Qed.

Lemma fields_join_back_witness :
  utf8_decode (strip row_a) = Some (join [TAB] row_a_cells)
  /\ Forall (fun f => ~ In TAB f) row_a_cells
  /\ List.length row_a_cells
     = S (count_occ N.eq_dec (join [TAB] row_a_cells) TAB).
Proof.
  apply (fields_join_back row_a row_a_cells). reflexivity.
Defined.

(** X10.  The three split files are different files, whatever the
    directory the archive was extracted to. *)
Theorem split_files_distinct (dl_manager : DownloadManager) :
  NoDup (map gen_kwargs_filepath (_split_generators dl_manager)).
Proof.
  unfold _split_generators, train_path, matched_validation_path,
    mismatched_validation_path, mnli_path.
  set (root := download_and_extract dl_manager _URL).
  cbn [map gen_kwargs_filepath].
  rewrite !path_join_twice by reflexivity.
  rewrite !path_join_relative by reflexivity.
  rewrite <- !string_app_assoc. set (prefix := (root ++ sep_after root)%string).
  repeat constructor; cbn [In]; intros H;
    repeat (destruct H as [H|H]; [apply string_app_inv in H; discriminate H|]);
    exact H.
Qed.

End MoreFiles.

(** ** Decoded text and the bytes it comes from *)

Section Decoded.

Import Py MultiNLI.

Lemma in_range_bounds (lo hi : N) (c : byte) :
  in_range lo hi c = true -> (lo <= Byte.to_N c /\ Byte.to_N c <= hi)%N.
Proof.
  unfold in_range. intros H. apply andb_true_iff in H.
  destruct H as [H1 H2]. apply N.leb_le in H1, H2. auto.
Qed.

(** One step of the decoder: the first code point is the first byte when
    that byte is ASCII, and is not ASCII otherwise; the bytes the step takes
    besides the first are not ASCII either. *)
Lemma utf8_decode_step (c0 : byte) (s : bytes) (t : str) :
  utf8_decode (c0 :: s) = Some t ->
  exists c t' k s',
    t = c :: t' /\ s = k ++ s' /\ utf8_decode s' = Some t' /\
    Forall (fun x => (128 <= Byte.to_N x)%N) k /\
    ((c = Byte.to_N c0 /\ (c < 128)%N /\ k = []) \/ (128 <= c)%N).
Proof.
  cbn [utf8_decode]. destruct (Byte.to_N c0 <? 128)%N eqn:H0.
  { apply N.ltb_lt in H0.
    destruct (utf8_decode s) as [t0|] eqn:Hd; [|discriminate].
    intros H; inversion H; subst t.
    exists (Byte.to_N c0), t0, [], s.
    split; [reflexivity|]. split; [reflexivity|]. split; [exact Hd|].
    split; [constructor|]. left.
    split; [reflexivity|]. split; [exact H0 | reflexivity]. }
  apply N.ltb_ge in H0.
  destruct (in_range 194 223 c0) eqn:H2.
  { apply in_range_bounds in H2. destruct s as [|c1 s1]; [discriminate|].
    destruct (cont c1) eqn:Hc1; [|discriminate].
    apply in_range_bounds in Hc1.
    destruct (utf8_decode s1) as [t1|] eqn:Hd; [|discriminate].
    intros H; inversion H; subst t.
    eexists _, t1, [c1], s1.
    split; [reflexivity|]. split; [reflexivity|]. split; [exact Hd|].
    split; [repeat constructor; lia|]. right. unfold low6. lia. }
  destruct (in_range 224 239 c0) eqn:H3.
  { apply in_range_bounds in H3.
    destruct s as [|c1 [|c2 s2]]; try discriminate.
    destruct (in_range
                (if (Byte.to_N c0 =? 224)%N then 160%N else 128%N)
                (if (Byte.to_N c0 =? 237)%N then 159%N else 191%N) c1
              && cont c2) eqn:Hc; [|discriminate].
    apply andb_true_iff in Hc. destruct Hc as [Hc1 Hc2].
    apply in_range_bounds in Hc1, Hc2.
    destruct (utf8_decode s2) as [t2|] eqn:Hd; [|discriminate].
    intros H; inversion H; subst t.
    eexists _, t2, [c1; c2], s2.
    split; [reflexivity|]. split; [reflexivity|]. split; [exact Hd|].
    destruct (Byte.to_N c0 =? 224)%N eqn:E;
      [apply N.eqb_eq in E | apply N.eqb_neq in E];
      (split; [repeat constructor; lia|]); right; unfold low6; lia. }
  destruct (in_range 240 244 c0) eqn:H4; [|discriminate].
  apply in_range_bounds in H4.
  destruct s as [|c1 [|c2 [|c3 s3]]]; try discriminate.
  destruct (in_range
              (if (Byte.to_N c0 =? 240)%N then 144%N else 128%N)
              (if (Byte.to_N c0 =? 244)%N then 143%N else 191%N) c1
            && cont c2 && cont c3) eqn:Hc; [|discriminate].
  apply andb_true_iff in Hc. destruct Hc as [Hc Hc3].
  apply andb_true_iff in Hc. destruct Hc as [Hc1 Hc2].
  apply in_range_bounds in Hc1, Hc2, Hc3.
  destruct (utf8_decode s3) as [t3|] eqn:Hd; [|discriminate].
  intros H; inversion H; subst t.
  eexists _, t3, [c1; c2; c3], s3.
  split; [reflexivity|]. split; [reflexivity|]. split; [exact Hd|].
  destruct (Byte.to_N c0 =? 240)%N eqn:E;
    [apply N.eqb_eq in E | apply N.eqb_neq in E];
    (split; [repeat constructor; lia|]); right; unfold low6; lia.
Qed.

(** An ASCII character of the decoded text is a byte of the input. *)
Lemma utf8_decode_ascii (n : nat) (s : bytes) (t : str) (c : N) :
  List.length s <= n ->
  utf8_decode s = Some t -> In c t -> (c < 128)%N ->
  exists x, In x s /\ Byte.to_N x = c.
Proof.
  revert s t. induction n as [|n IH]; intros s t Hlen Hdec Hin Hc.
  - destruct s; [|simpl in Hlen; lia].
    simpl in Hdec. inversion Hdec; subst t. destruct Hin.
  - destruct s as [|c0 s]; [simpl in Hdec; inversion Hdec; subst; destruct Hin|].
    destruct (utf8_decode_step _ _ _ Hdec)
      as (c' & t' & k & s' & -> & -> & Hdec' & Hk & Hhead).
    destruct Hin as [<-|Hin].
    + destruct Hhead as [[-> _]|Hge]; [|lia]. exists c0. split; [now left|auto].
    + destruct (IH s' t') as (x & Hx & Hxc); auto.
      * simpl in Hlen. rewrite length_app in Hlen. lia.
      * exists x. split; [|exact Hxc]. right. apply in_or_app. now right.
Qed.

Lemma to_N_newline (x : byte) : Byte.to_N x = 10%N -> x = x0a.
Proof. destruct x; try reflexivity; intros H; discriminate H. Qed.

Lemma space_char_of_byte (x : byte) :
  is_space x = false -> is_space_char (Byte.to_N x) = false.
Proof. destruct x; try reflexivity; intros H; discriminate H. Qed.

Lemma space_char_not_ascii (c : N) :
  (128 <= c)%N -> is_space_char c = false.
Proof.
  intros H. unfold is_space_char.
  repeat (apply orb_false_intro); apply N.eqb_neq; lia.
Qed.

(** Each line the file object gives holds a newline as its last byte at
    most. *)
Lemma readlines_shape (data : bytes) (l : bytes) :
  In l (readlines data) ->
  exists body,
    existsb (Byte.eqb x0a) body = false /\ (l = body \/ l = body ++ [x0a]).
Proof.
  revert l. induction data as [|c d IH]; intros l Hin; [destruct Hin|].
  cbn [readlines] in Hin. destruct (Byte.eqb c x0a) eqn:Hc.
  - destruct Hin as [<-|Hin]; [|exact (IH _ Hin)].
    exists []. split; [reflexivity|]. right.
    apply Byte.byte_dec_bl in Hc. now subst c.
  - assert (Hc' : Byte.eqb x0a c = false) by now rewrite byte_eqb_sym.
    destruct (Byte.eqb c x0d); [exact (IH _ Hin)|].
    destruct (readlines d) as [|l0 ls].
    + destruct Hin as [<-|[]]. exists [c]. split; [|now left].
      cbn [existsb]. now rewrite Hc'.
    + destruct Hin as [<-|Hin].
      * destruct (IH l0 (or_introl eq_refl)) as (body & Hb & Hl).
        exists (c :: body). split; [cbn [existsb]; now rewrite Hc', Hb|].
        destruct Hl as [->| ->]; [now left | now right].
      * apply IH. now right.
Qed.

Lemma strip_no_newline (data : bytes) (l : bytes) :
  In l (readlines data) -> ~ In x0a (strip l).
Proof.
  intros Hin Hx. destruct (readlines_shape _ _ Hin) as (body & Hb & Hl).
  assert (Hs : strip l = strip body).
  { destruct Hl as [->| ->]; [reflexivity|]. now apply strip_app_space. }
  rewrite Hs in Hx. destruct (strip_decompose body) as (pre & post & E & _).
  assert (Hin' : In x0a body).
  { rewrite E. apply in_or_app. right. apply in_or_app. now left. }
  assert (Hex : existsb (Byte.eqb x0a) body = true).
  { apply existsb_exists. exists x0a. split; [exact Hin' | reflexivity]. }
  congruence.
Qed.

End Decoded.

(** ** The text of the Examples *)

Section EmittedText.

Import Py MultiNLI.

Lemma field_clean (data line : bytes) (t f : str) :
  In line (readlines data) ->
  utf8_decode (strip line) = Some t ->
  In f (split TAB t) ->
  Forall (fun c => c <> TAB /\ c <> 10%N) f.
Proof.
  intros Hline Hdec Hf. apply Forall_forall. intros c Hc. split.
  - intros ->. pose proof (split_no_sep TAB t) as Hno.
    rewrite Forall_forall in Hno. exact (Hno _ Hf Hc).
  - intros ->. pose proof (split_member _ _ _ _ Hf Hc) as Ht.
    destruct (utf8_decode_ascii (List.length (strip line)) _ _ _
                (le_n _) Hdec Ht) as (x & Hx & Hxc); [reflexivity|].
    apply to_N_newline in Hxc. subst x.
    exact (strip_no_newline _ _ Hline Hx).
Qed.

(** X11.  The label of an emitted Example is never empty and never starts
    with a whitespace character: the line was stripped before the split, so
    its first field starts with what is left of the line. *)
Theorem emitted_label_not_blank
        (filepath : string) (fs : filesystem) (idx : nat) (ex : Example) :
  In (idx, ex) (yielded (fst (_generate_examples filepath fs))) ->
  exists c t, label ex = c :: t /\ is_space_char c = false.
Proof.
  intros Hin. destruct (fs filepath) as [data|] eqn:Hfs.
  2:{ rewrite (generate_examples_missing _ _ Hfs) in Hin. destruct Hin. }
  rewrite (generate_examples_lines _ _ _ Hfs) in Hin.
  destruct (for_rows_In _ _ _ _ Hin)
    as (_ & _ & line & cells & _ & Hf & H0 & _ & H5 & _).
  unfold fields, as_text in Hf.
  destruct (utf8_decode (strip line)) as [t|] eqn:Hdec; [|discriminate].
  inversion Hf; subst cells. clear Hf.
  destruct (strip line) as [|c0 s] eqn:Hs.
  - simpl in Hdec. inversion Hdec; subst t. discriminate H5.
  - pose proof (strip_head _ _ _ Hs) as Hc0.
    destruct (utf8_decode_step _ _ _ Hdec)
      as (c & t' & k & s' & -> & _ & _ & _ & Hhead).
    assert (Hc : is_space_char c = false).
    { destruct Hhead as [[-> _]|Hge];
        [now apply space_char_of_byte | now apply space_char_not_ascii]. }
    assert (Htab : N.eqb c TAB = false).
    { destruct (N.eqb c TAB) eqn:E; [|reflexivity].
      apply N.eqb_eq in E. subst c. discriminate Hc. }
    cbn [split] in H0. rewrite Htab in H0.
    destruct (split_cons TAB t') as (f & fs0 & E). rewrite E in H0.
    simpl in H0. inversion H0. exists c, f. auto.
Qed.

Lemma emitted_label_not_blank_witness :
  exists c t, label odd_label_example = c :: t /\ is_space_char c = false.
Proof.
  apply (emitted_label_not_blank
           "f" (one_file (header ++ row_lead ++ row_odd_label)) 2
           odd_label_example).
  vm_compute. right. left. reflexivity.
Defined.

(** X12.  The premise, the hypothesis and the label of an emitted Example
    hold neither a tab nor a newline character: the line reaches up to its
    newline, which the strip takes off, and the fields lie between the
    tabs. *)
Theorem emitted_text_has_no_tab_or_newline
        (filepath : string) (fs : filesystem) (idx : nat) (ex : Example) :
  In (idx, ex) (yielded (fst (_generate_examples filepath fs))) ->
  Forall (fun c => c <> TAB /\ c <> 10%N) (premise ex)
  /\ Forall (fun c => c <> TAB /\ c <> 10%N) (hypothesis ex)
  /\ Forall (fun c => c <> TAB /\ c <> 10%N) (label ex).
Proof.
  intros Hin. destruct (fs filepath) as [data|] eqn:Hfs.
  2:{ rewrite (generate_examples_missing _ _ Hfs) in Hin. destruct Hin. }
  rewrite (generate_examples_lines _ _ _ Hfs) in Hin.
  destruct (for_rows_In _ _ _ _ Hin)
    as (_ & _ & line & cells & Hn & Hf & H0 & _ & H5 & H6).
  apply nth_error_In in Hn, H0, H5, H6.
  unfold fields, as_text in Hf.
  destruct (utf8_decode (strip line)) as [t|] eqn:Hdec; [|discriminate].
  inversion Hf; subst cells.
  split; [|split]; eapply field_clean; eauto.
Qed.

Lemma emitted_text_has_no_tab_or_newline_witness :
  Forall (fun c => c <> TAB /\ c <> 10%N) (premise odd_label_example)
  /\ Forall (fun c => c <> TAB /\ c <> 10%N) (hypothesis odd_label_example)
  /\ Forall (fun c => c <> TAB /\ c <> 10%N) (label odd_label_example).
Proof.
  apply (emitted_text_has_no_tab_or_newline
           "f" (one_file (header ++ row_lead ++ row_odd_label)) 2
           odd_label_example).
  vm_compute. right. left. reflexivity.
Defined.

End EmittedText.

(** ** Ends: the last field, a missing file, a trailing separator *)

Section Ends.

Import Py MultiNLI.

(** The last code point of a decoded text is its last byte when that byte
    is ASCII, and is not ASCII otherwise. *)
Lemma utf8_decode_last (n : nat) (s s0 : bytes) (x : byte) (t : str) :
  List.length s <= n ->
  s = s0 ++ [x] ->
  utf8_decode s = Some t ->
  exists t0 c,
    t = t0 ++ [c] /\ ((c = Byte.to_N x /\ (c < 128)%N) \/ (128 <= c)%N).
Proof.
  revert s s0 t. induction n as [|n IH]; intros s s0 t Hlen Hs Hdec.
  - subst s. rewrite length_app in Hlen. simpl in Hlen. lia.
  - destruct s as [|c0 rest]; [destruct s0; discriminate Hs|].
    destruct (utf8_decode_step _ _ _ Hdec)
      as (c & t' & k & s' & -> & -> & Hdec' & _ & Hhead).
    destruct s' as [|y s'] using rev_ind.
    + simpl in Hdec'. inversion Hdec'; subst t'. exists [], c.
      split; [reflexivity|]. destruct Hhead as [(-> & Hlt & ->)|Hge];
        [|now right].
      left. split; [|exact Hlt]. simpl in Hs.
      change [c0] with ([] ++ [c0]) in Hs.
      apply app_inj_tail in Hs. destruct Hs as [_ ->]. reflexivity.
    + clear IHs'.
      assert (Hx : y = x).
      { change (c0 :: k ++ s' ++ [y]) with ((c0 :: k) ++ s' ++ [y]) in Hs.
        rewrite app_assoc in Hs. apply app_inj_tail in Hs. tauto. }
      subst y.
      destruct (IH (s' ++ [x]) s' t') as (t0 & c' & -> & Hc'); auto.
      * simpl in Hlen. rewrite !length_app in *. simpl in *. lia.
      * exists (c :: t0), c'. split; [reflexivity | exact Hc'].
Qed.

Lemma split_last (sep : N) (t0 : str) (c : N) :
  c <> sep ->
  exists fs f, split sep (t0 ++ [c]) = fs ++ [f ++ [c]].
Proof.
  intros Hc. induction t0 as [|d t0 IH].
  - exists [], []. cbn [app split]. apply N.eqb_neq in Hc. now rewrite Hc.
  - destruct IH as (fs & f & E). cbn [app split]. rewrite E.
    destruct (N.eqb d sep).
    + now exists ([] :: fs), f.
    + destruct fs as [|g fs].
      * now exists [], (d :: f).
      * now exists ((d :: g) :: fs), f.
Qed.

(** X13.  A row of exactly seven fields is emitted only with a hypothesis
    that is not empty and does not end with a whitespace character: the
    strip takes a blank last column off together with its tab, and the row
    then has six fields. *)
Theorem seven_field_hypothesis_not_blank
        (filepath : string) (fs : filesystem) (data : bytes)
        (idx : nat) (ex : Example) (line : bytes) (cells : list str) :
  In (idx, ex) (yielded (fst (_generate_examples filepath fs))) ->
  fs filepath = Some data ->
  nth_error (readlines data) idx = Some line ->
  fields line = Some cells ->
  List.length cells = 7 ->
  exists t c, hypothesis ex = t ++ [c] /\ is_space_char c = false.
Proof.
  intros Hin Hfs Hn Hf Hlen.
  rewrite (generate_examples_lines _ _ _ Hfs) in Hin.
  destruct (for_rows_In _ _ _ _ Hin)
    as (_ & _ & line' & cells' & Hn' & Hf' & _ & _ & _ & H6).
  rewrite Nat.sub_0_r in Hn'.
  assert (line' = line) by congruence. subst line'.
  assert (cells' = cells) by congruence. subst cells'. clear Hn' Hf'.
  unfold fields, as_text in Hf.
  destruct (utf8_decode (strip line)) as [t|] eqn:Hdec; [|discriminate].
  inversion Hf; subst cells. clear Hf.
  destruct (strip line) as [|b0 bs] eqn:Hs.
  { simpl in Hdec. inversion Hdec; subst t. discriminate Hlen. }
  destruct (exists_last (l := b0 :: bs)) as (s0 & x & Hlast); [discriminate|].
  assert (Hx : is_space x = false).
  { apply (rstrip_last (lstrip line) s0 x). unfold strip in Hs.
    now rewrite Hs. }
  destruct (utf8_decode_last (List.length (b0 :: bs)) _ _ _ _
              (le_n _) Hlast Hdec) as (t0 & c & -> & Hc).
  assert (Hsp : is_space_char c = false).
  { destruct Hc as [[-> _]|Hge];
      [now apply space_char_of_byte | now apply space_char_not_ascii]. }
  assert (Htab : c <> TAB) by (intros ->; discriminate Hsp).
  destruct (split_last TAB t0 c Htab) as (fs0 & f & E).
  rewrite E in Hlen, H6. rewrite length_app in Hlen. simpl in Hlen.
  rewrite nth_error_app2 in H6 by lia.
  replace (6 - List.length fs0) with 0 in H6 by lia.
  simpl in H6. inversion H6. exists f, c. auto.
Qed.

Lemma seven_field_hypothesis_not_blank_witness :
  exists t c, hypothesis odd_label_example = t ++ [c]
              /\ is_space_char c = false.
Proof.
  apply (seven_field_hypothesis_not_blank
           "f" (one_file (header ++ row_odd_label))
           (header ++ row_odd_label) 1 odd_label_example row_odd_label
           (map ascii_str
                ["maybe"; "a"; "b"; "c"; "d"; "One."; "Two."]%string)).
  - vm_compute. left. reflexivity.
  - reflexivity.
  - reflexivity.
  - reflexivity.
  - reflexivity.
Defined.

(** X14.  [NotFoundError] is the end of a run exactly when there is no file
    under the path; nothing is yielded then, by the row generator and by the
    vocabulary text generator alike. *)
Theorem not_found_iff_missing (filepath : string) (fs : filesystem) :
  (raised (fst (_generate_examples filepath fs)) = Some NotFoundError <->
   fs filepath = None)
  /\ (raised (fst (_vocab_text_gen filepath fs)) = Some NotFoundError <->
      fs filepath = None)
  /\ (fs filepath = None ->
      yielded (fst (_generate_examples filepath fs)) = []
      /\ yielded (fst (_vocab_text_gen filepath fs)) = []).
Proof.
  assert (H : raised (fst (_generate_examples filepath fs))
              = Some NotFoundError <-> fs filepath = None).
  { destruct (fs filepath) as [data|] eqn:Hfs.
    - rewrite (generate_examples_lines _ _ _ Hfs). split; [|discriminate].
      intros Hr. now apply for_rows_never_not_found in Hr.
    - rewrite (generate_examples_missing _ _ Hfs). split; reflexivity. }
  assert (Hv : raised (fst (_vocab_text_gen filepath fs))
               = raised (fst (_generate_examples filepath fs))).
  { unfold _vocab_text_gen.
    now destruct (_generate_examples filepath fs) as [g fs1]. }
  split; [exact H|]. split; [now rewrite Hv|].
  intros Hfs. unfold _vocab_text_gen.
  pose proof (generate_examples_missing _ _ Hfs) as Hg.
  destruct (_generate_examples filepath fs) as [g fs1].
  cbn [fst] in *. subst g. split; reflexivity.
Qed.

Lemma sep_after_slash (a : string) :
  sep_after (a ++ "/") = EmptyString.
Proof.
  unfold sep_after. rewrite endswith_slash_app.
  destruct (a ++ "/")%string eqn:E; [reflexivity|].
  reflexivity.
Qed.

(** X15.  A separator at the end of the extraction directory changes
    nothing: the split files are the same with and without it. *)
Theorem trailing_separator_irrelevant
        (dl_manager dl_manager' : DownloadManager) :
  download_and_extract dl_manager _URL <> EmptyString ->
  endswith_slash (download_and_extract dl_manager _URL) = false ->
  download_and_extract dl_manager' _URL
  = (download_and_extract dl_manager _URL ++ "/")%string ->
  _split_generators dl_manager' = _split_generators dl_manager.
Proof.
  intros Hne Hend Hdir.
  unfold _split_generators, train_path, matched_validation_path,
    mismatched_validation_path, mnli_path.
  rewrite Hdir. set (root := download_and_extract dl_manager _URL) in *.
  rewrite !path_join_twice by reflexivity.
  rewrite !path_join_relative by reflexivity.
  rewrite sep_after_slash. unfold sep_after. rewrite Hend.
  destruct root as [|c root]; [congruence|].
  rewrite !string_app_assoc. reflexivity.
Qed.

Lemma trailing_separator_irrelevant_witness :
  _split_generators (extracted_to "/data/mnli/")
  = _split_generators (extracted_to "/data/mnli").
Proof.
  apply (trailing_separator_irrelevant
           (extracted_to "/data/mnli") (extracted_to "/data/mnli/")).
  - discriminate.
  - reflexivity.
  - reflexivity.
Defined.

End Ends.

(** ** The file object and carriage returns *)

Section CarriageReturns.

Import Py MultiNLI.

Lemma readlines_drop_cr (data : bytes) :
  readlines (drop_cr data) = readlines data.
Proof.
  induction data as [|c d IH]; [reflexivity|].
  unfold drop_cr. cbn [filter]. fold (drop_cr d).
  destruct (Byte.eqb c x0d) eqn:Hcr; cbn [negb readlines].
  - apply Byte.byte_dec_bl in Hcr. subst c. exact IH.
  - rewrite Hcr, IH. reflexivity.
Qed.

(** The lines of a file with carriage returns in its ends of line, inside a
    line and as its last stretch. *)
Example readlines_with_carriage_returns :
  readlines ([x61; x0d; x0a; x62; x0d; x63; x0a; x0a; x64; x0d; x65])
  = [[x61; x0a]; [x62; x63; x0a]; [x0a]; [x64; x65]]
  /\ readlines (header ++ [x0d]) = [header].
Proof. split; reflexivity. Qed.

(** A last line of carriage returns alone is no row; a row marked ["-"]
    before a carriage return is skipped; a carriage return between the bytes
    of one character does not keep it from decoding. *)
Example runs_with_carriage_returns :
  fst (_generate_examples "f" (one_file (header ++ [x0d]))) = stop
  /\ fst (_generate_examples
            "f" (one_file (header ++ row_dash_short ++ [x0d]))) = stop
  /\ fst (_generate_examples "f" (one_file (header ++ row_dash_cr))) = stop
  /\ fields row_cafe_cr = None
  /\ fst (_generate_examples "f" (one_file (header ++ row_cafe_cr)))
     = raise IndexError
  /\ yielded (fst (_generate_examples
                     "f" (one_file (header ++ row_cr_inside))))
     = [(1, {| premise := ascii_str "Onemore.";
               hypothesis := ascii_str "Two.";
               label := ascii_str "neutral" |})].
Proof. repeat split; reflexivity. Qed.

(** X16.  Carriage returns do not count: a file and the same file without
    its carriage-return bytes give the same run, inside the fields as at the
    ends of the lines. *)
Theorem carriage_returns_irrelevant
        (filepath : string) (fs fs' : filesystem) (data : bytes) :
  fs filepath = Some data ->
  fs' filepath = Some (drop_cr data) ->
  fst (_generate_examples filepath fs')
  = fst (_generate_examples filepath fs).
Proof.
  intros Hfs Hfs'.
  rewrite (generate_examples_lines _ _ _ Hfs),
          (generate_examples_lines _ _ _ Hfs').
  now rewrite readlines_drop_cr.
Qed.

Lemma carriage_returns_irrelevant_witness :
  fst (_generate_examples
         "f" (one_file (drop_cr (header ++ row_cr_inside ++ row_dash_cr))))
  = fst (_generate_examples
           "f" (one_file (header ++ row_cr_inside ++ row_dash_cr))).
Proof.
  apply (carriage_returns_irrelevant
           "f" (one_file (header ++ row_cr_inside ++ row_dash_cr))
           (one_file (drop_cr (header ++ row_cr_inside ++ row_dash_cr)))
           (header ++ row_cr_inside ++ row_dash_cr));
    reflexivity.
Defined.

End CarriageReturns.
